(** * HSMA Career Center change detector: a shallow embedding of [app.py]

    The definitions come first: Python text, the pandas [Series] a table
    row is handed over as and [parse_row], the [CareerCenter] table with the
    three SQL statements the program executes, the text differ and
    [generate_pretty_diff], [generate_message], [check_for_change],
    [table_preprocessing] and the loop of [main].  The theorems follow. *)

From Stdlib Require Import Ascii String DecimalString.
From Stdlib Require Import List Sorted FinFun ZArith NArith Bool Lia.
Import ListNotations.

Local Open Scope Z_scope.

(** ** Python text *)

(** A Python [str] is a sequence of Unicode code points. *)
Definition str := list N.

(** The code points of an ASCII literal. *)
Definition py (s : string) : str := map N_of_ascii (list_ascii_of_string s).

Definition str_eq_dec : forall a b : str, {a = b} + {a <> b} := list_eq_dec N.eq_dec.

Definition str_eqb (a b : str) : bool := if str_eq_dec a b then true else false.

(** [prefix] is an initial segment of [s]. *)
Fixpoint startswith (prefix s : str) : bool :=
  match prefix, s with
  | [], _ => true
  | p :: ps, c :: cs => N.eqb p c && startswith ps cs
  | _ :: _, [] => false
  end.

(** Python's [needle in hay] on text. *)
Fixpoint contains (needle hay : str) : bool :=
  startswith needle hay ||
  match hay with
  | [] => false
  | _ :: rest => contains needle rest
  end.

(** [c.isspace()]: the code points [str.strip()] removes. *)
Definition isspace (c : N) : bool :=
  (((9 <=? c) && (c <=? 13)) || ((28 <=? c) && (c <=? 32)) || (c =? 133) || (c =? 160)
   || (c =? 5760) || ((8192 <=? c) && (c <=? 8202)) || (c =? 8232) || (c =? 8233)
   || (c =? 8239) || (c =? 8287) || (c =? 12288))%N.

Fixpoint lstrip (s : str) : str :=
  match s with
  | [] => []
  | c :: rest => if isspace c then lstrip rest else s
  end.

Definition rstrip (s : str) : str := rev (lstrip (rev s)).

(** [s.strip()] *)
Definition strip (s : str) : str := rstrip (lstrip s).

(** [sep.join(parts)] *)
Fixpoint join (sep : str) (parts : list str) : str :=
  match parts with
  | [] => []
  | [p] => p
  | p :: rest => p ++ sep ++ join sep rest
  end.

(** [str(n)] for an integer: its decimal numeral. *)
Definition str_of_int (n : Z) : str := py (NilZero.string_of_int (Z.to_int n)).

(** ** Cells and rows *)

(** The value of a cell: missing (NaN), text, or an integer (the [table_num]
    column that [table_preprocessing] adds). *)
Inductive value :=
| VNull
| VStr (s : str)
| VInt (n : Z).

(** [str(v)] as [check_for_change] applies it before diffing. *)
Definition py_str (v : value) : str :=
  match v with
  | VNull => py "nan"
  | VStr s => s
  | VInt n => str_of_int n
  end.

Definition isnull (v : value) : bool :=
  match v with
  | VNull => true
  | _ => false
  end.

(** A pandas [Series] holding one table row: the column labels with their
    cells, in column order. *)
Definition Series := list (str * value).

(** [row.filter(like=token)]: the entries whose label contains [token]. *)
Definition filter_like (token : str) (row : Series) : Series :=
  filter (fun entry => contains token (fst entry)) row.

(** [series.get(0, default)] on a series with text labels: the first cell,
    or [default] when the series is empty. *)
Definition get0 (series : Series) (default : value) : value :=
  match series with
  | [] => default
  | (_, v) :: _ => v
  end.

(** The 8-tuple [parse_row] returns, under the names of its local variables. *)
Record Parsed := mkParsed {
  thema : value;
  ue : value;
  bv : value;
  termine : value;
  uhrzeit : value;
  raum : value;
  anmeldung : value;
  table_num : value
}.

(** The tuple as a sequence, for [zip] and indexing. *)
Definition items (p : Parsed) : list value :=
  [thema p; ue p; bv p; termine p; uhrzeit p; raum p; anmeldung p; table_num p].

Definition parse_row (row : Series) : Parsed :=
  {| thema := get0 (filter_like (py "Thema") row) (VStr []);
     ue := get0 (filter_like (py "(UE)") row) (VStr []);
     bv := get0 (filter_like (py "Anerkennung") row) (VStr []);
     termine := get0 (filter_like (py "Termin") row) (VStr []);
     uhrzeit := get0 (filter_like (py "Uhrzeit") row) (VStr []);
     raum := get0 (filter_like (py "Raum") row) (VStr []);
     anmeldung := get0 (filter_like (py "Anmeldung") row) (VStr []);
     table_num := get0 (filter_like (py "table_num") row) (VStr []) |}.

(** ** The [CareerCenter] table *)

Module Sqlite.

(** A row of the table [setup_sqlite] creates: seven TEXT columns and the
    INTEGER column [table_num]; the primary key is [(Thema, table_num)]. *)
Record CareerCenter := mkRow {
  Thema : str;
  Zeitlicher_Umfang : str;
  Anerkennung : str;
  Termin : str;
  Uhrzeit : str;
  Raum : str;
  Anmeldung : str;
  table_num : Z
}.

Definition Table := list CareerCenter.

(** [WHERE Thema = ? AND table_num = ?] *)
Definition where_key (topic : str) (n : Z) (r : CareerCenter) : bool :=
  str_eqb (Thema r) topic && (table_num r =? n).

(** [SELECT * FROM CareerCenter WHERE Thema=? AND table_num=?] *)
Definition select (tbl : Table) (topic : str) (n : Z) : list CareerCenter :=
  filter (where_key topic n) tbl.

(** [cursor.fetchone()]: the first row of the result set, if any. *)
Definition fetchone (result_set : list CareerCenter) : option CareerCenter :=
  match result_set with
  | [] => None
  | r :: _ => Some r
  end.

(** What executing a statement that writes gives: the table afterwards, or
    the one error the schema can raise (a violated primary key). *)
Inductive result :=
| Done (tbl : Table)
| IntegrityError.

(** [INSERT INTO CareerCenter VALUES (?,?,?,?,?,?,?,?)] *)
Definition insert (tbl : Table) (r : CareerCenter) : result :=
  if existsb (where_key (Thema r) (table_num r)) tbl then IntegrityError
  else Done (tbl ++ [r]).

(** [UPDATE CareerCenter SET Zeitlicher_Umfang=?, Anerkennung=?, Termin=?,
    Uhrzeit=?, Raum=?, Anmeldung=? WHERE Thema = ? AND table_num = ?] *)
Definition update (tbl : Table) (ue bv termine uhrzeit raum anmeldung topic : str)
    (n : Z) : result :=
  Done (map (fun r =>
               if where_key topic n r
               then {| Thema := Thema r;
                       Zeitlicher_Umfang := ue;
                       Anerkennung := bv;
                       Termin := termine;
                       Uhrzeit := uhrzeit;
                       Raum := raum;
                       Anmeldung := anmeldung;
                       table_num := table_num r |}
               else r) tbl).

(** A connection: what is committed, and what the open transaction sees. *)
Record Connection := mkConn {
  committed : Table;
  current : Table
}.

(** [conn.commit()] *)
Definition commit (conn : Connection) : Connection :=
  {| committed := current conn; current := current conn |}.

(** A fetched row as the tuple Python receives. *)
Definition as_tuple (r : CareerCenter) : list value :=
  [VStr (Thema r); VStr (Zeitlicher_Umfang r); VStr (Anerkennung r); VStr (Termin r);
   VStr (Uhrzeit r); VStr (Raum r); VStr (Anmeldung r); VInt (table_num r)].

End Sqlite.

(** ** The text differ *)

(** A diff as [diff_match_patch] represents it: pairs of an operation
    ([-1] delete, [0] equal, [1] insert) and a piece of text. *)
Definition Diff := list (Z * str).

(** The two methods of the [diff_match_patch] library that [calc_str_diff]
    calls.  The library is imported, not part of the program's sources: its
    methods are parameters of everything that uses them.  ([diff_cleanupSemantic]
    rewrites the list it is given; here it returns the rewritten list.) *)
Class diff_match_patch := {
  diff_main : str -> str -> Diff;
  diff_cleanupSemantic : Diff -> Diff
}.

(** The source text of a diff: all of its pieces but the insertions. *)
Definition diff_text1 (diffs : Diff) : str :=
  concat (map snd (filter (fun elem => negb (fst elem =? 1)) diffs)).

(** The destination text of a diff: all of its pieces but the deletions. *)
Definition diff_text2 (diffs : Diff) : str :=
  concat (map snd (filter (fun elem => negb (fst elem =? -1)) diffs)).

(** Every operation of a diff is one of [-1], [0], [1]. *)
Definition well_tagged (diffs : Diff) : Prop :=
  Forall (fun elem => fst elem = -1 \/ fst elem = 0 \/ fst elem = 1) diffs.

(** Modelled from the spec: the code of [diff_main] and
    [diff_cleanupSemantic] ([diff_match_patch], imported by [app.py]) is
    missing from the sources.  The spec's data model makes a diff a sequence
    of spans tagged equal, deleted or inserted "whose concatenation
    reconstructs both the original and new strings independently"; its Text
    Differ makes the deleted and inserted spans "the minimal edit needed to
    transform old into new", none when the texts are the same, and the
    cleanup pass one that "merges" spans: it regroups a diff, keeping the
    two texts it stands for and adding no edit to a diff that has none. *)
Class diff_match_patch_spec (dmp : diff_match_patch) := {
  diff_main_tags : forall text1 text2, well_tagged (diff_main text1 text2);
  diff_main_text1 : forall text1 text2, diff_text1 (diff_main text1 text2) = text1;
  diff_main_text2 : forall text1 text2, diff_text2 (diff_main text1 text2) = text2;
  diff_main_same : forall text,
      Forall (fun elem => fst elem = 0) (diff_main text text);
  diff_cleanupSemantic_tags : forall diffs,
      well_tagged diffs -> well_tagged (diff_cleanupSemantic diffs);
  diff_cleanupSemantic_text1 : forall diffs,
      well_tagged diffs -> diff_text1 (diff_cleanupSemantic diffs) = diff_text1 diffs;
  diff_cleanupSemantic_text2 : forall diffs,
      well_tagged diffs -> diff_text2 (diff_cleanupSemantic diffs) = diff_text2 diffs;
  diff_cleanupSemantic_equalities : forall diffs,
      Forall (fun elem => fst elem = 0) diffs ->
      Forall (fun elem => fst elem = 0) (diff_cleanupSemantic diffs)
}.

(** [sum([elem[0] != 0 for elem in diff])] *)
Definition num_changed_elements (diff : Diff) : nat :=
  length (filter (fun elem => negb (fst elem =? 0)) diff).

(** The pieces of a diff that carry one of the operations [ops]. *)
Definition spans_tagged (ops : list Z) (diff : Diff) : Diff :=
  filter (fun elem => existsb (Z.eqb (fst elem)) ops) diff.

(** The text of a sequence of pieces. *)
Definition payloads (diff : Diff) : str := concat (map snd diff).

(** One piece of the visualization: equal text as it is, deleted text with
    its characters joined by a space and U+0336 and one more U+0336 at the
    end, inserted text between [**]. *)
Definition pretty_elem (elem : Z * str) : str :=
  if fst elem =? 0 then snd elem
  else if fst elem =? -1
       then join [32%N; 822%N] (map (fun c => [c]) (snd elem)) ++ [822%N]
  else if fst elem =? 1 then py "**" ++ snd elem ++ py "**"
  else [].

Definition generate_pretty_diff (diff : Diff) : str :=
  fold_left (fun pretty_dif elem => pretty_dif ++ pretty_elem elem) diff [].

(** ** Messages *)

Definition titles : list str :=
  [py "Thema"; py "UE"; py "Fakult" ++ [228%N] ++ py "t"; py "Termin(e)";
   py "Uhrzeit"; py "Raum"; py "Anmeldung"].

(** The loop of [generate_message]: a line [title: info] for every pair.
    Python concatenates text only; another kind of [info] is a TypeError
    ([None] here). *)
Fixpoint message_lines (pairs : list (str * value)) (message : str) : option str :=
  match pairs with
  | [] => Some message
  | (title, VStr info) :: rest =>
      message_lines rest (message ++ title ++ py ": " ++ info ++ [10%N])
  | _ => None
  end.

(** [generate_message] prints the message, then a separator; [stdout] is
    the sequence of printed texts. *)
Definition generate_message (result_html : list value) (stdout : list str)
    : option (list str) :=
  match message_lines (combine titles result_html) [] with
  | Some message => Some (stdout ++ [message; py "--------------"])
  | None => None
  end.

(** ** The change detector *)

(** Steps that can fail are chained in [option]; [None] is a run that does
    not return normally, see [check_for_change]. *)
Notation "x <- e ;; k" := (match e with Some x => k | None => None end)
  (at level 61, e at next level, right associativity).

(** A parameter bound to a TEXT column. *)
Definition bind_text (v : value) : option str :=
  match v with
  | VStr s => Some s
  | _ => None
  end.

(** [int(v)] on an integer cell. *)
Definition py_int (v : value) : option Z :=
  match v with
  | VInt n => Some n
  | _ => None
  end.

(** The eight parameters of the INSERT, bound at the column types. *)
Definition bind_row (p : Parsed) : option Sqlite.CareerCenter :=
  t <- bind_text (thema p) ;;
  u <- bind_text (ue p) ;;
  b <- bind_text (bv p) ;;
  d <- bind_text (termine p) ;;
  z <- bind_text (uhrzeit p) ;;
  r <- bind_text (raum p) ;;
  a <- bind_text (anmeldung p) ;;
  n <- py_int (table_num p) ;;
  Some (Sqlite.mkRow t u b d z r a n).

(** The program's effects: the database connection and what was printed. *)
Record State := mkState {
  conn : Sqlite.Connection;
  stdout : list str
}.

Section Detector.

Context {dmp : diff_match_patch}.

Definition calc_str_diff (original_str new_str : str) : Diff :=
  diff_cleanupSemantic (diff_main original_str new_str).

(** One turn of the loop over [zip(result_db, result_html)]: the state of
    [(result, change_detected)] after the pair [(entry_db, entry_html)]. *)
Definition compare_entry (acc : list value * bool) (pair : value * value)
    : list value * bool :=
  let diff := calc_str_diff (py_str (fst pair)) (py_str (snd pair)) in
  if (0 <? num_changed_elements diff)%nat
  then (fst acc ++ [VStr (generate_pretty_diff diff)], true)
  else (fst acc ++ [fst pair], snd acc).

Definition compare_entries (result_db result_html : list value) : list value * bool :=
  fold_left compare_entry (combine result_db result_html) ([], false).

(** [check_for_change row conn cursor].  [None] stands for every run the
    model does not follow to a normal return: a Python exception
    (a Thema that is not text has no [strip], a primary-key violation, a
    message line built from something that is not text) or a parameter
    read at another type than the table's (an integer or NaN for a TEXT
    column, [int()] of something that is not an integer cell). *)
Definition check_for_change (row : Series) (st : State) : option State :=
  if forallb isnull (map snd row) then Some st
  else
    let result_html := parse_row row in
    match thema result_html with
    | VStr topic =>
        if str_eqb (strip topic) [] then Some st
        else
          n <- py_int (table_num result_html) ;;
          match Sqlite.fetchone (Sqlite.select (Sqlite.current (conn st)) topic n) with
          | None =>
              r <- bind_row result_html ;;
              match Sqlite.insert (Sqlite.current (conn st)) r with
              | Sqlite.Done tbl =>
                  let conn' := Sqlite.commit (Sqlite.mkConn (Sqlite.committed (conn st)) tbl) in
                  out <- generate_message (items result_html) (stdout st) ;;
                  Some (mkState conn' out)
              | Sqlite.IntegrityError => None
              end
          | Some result_db =>
              let (result, change_detected) :=
                compare_entries (Sqlite.as_tuple result_db) (items result_html) in
              if change_detected then
                r <- bind_row result_html ;;
                match Sqlite.update (Sqlite.current (conn st))
                        (Sqlite.Zeitlicher_Umfang r) (Sqlite.Anerkennung r)
                        (Sqlite.Termin r) (Sqlite.Uhrzeit r) (Sqlite.Raum r)
                        (Sqlite.Anmeldung r) (Sqlite.Thema r) (Sqlite.table_num r) with
                | Sqlite.Done tbl =>
                    let conn' := Sqlite.commit (Sqlite.mkConn (Sqlite.committed (conn st)) tbl) in
                    out <- generate_message result (stdout st) ;;
                    Some (mkState conn' out)
                | Sqlite.IntegrityError => None
                end
              else Some st
          end
    | _ => None
    end.

End Detector.

(** ** Preprocessing of a scraped table *)

(** A pandas [DataFrame]: the column labels and the rows of cells. *)
Record DataFrame := mkFrame {
  columns : list str;
  data : list (list value)
}.

(** [df.where(pd.notnull(df), '')] on one cell. *)
Definition fill_null (v : value) : value :=
  if isnull v then VStr [] else v.

(** The cells of a row as text; [', '.join] accepts nothing else. *)
Fixpoint text_cells (cells : list value) : option (list str) :=
  match cells with
  | [] => Some []
  | VStr s :: rest => tl <- text_cells rest ;; Some (s :: tl)
  | _ => None
  end.

Fixpoint text_rows (rows : list (list value)) : option (list (list str)) :=
  match rows with
  | [] => Some []
  | r :: rest => cells <- text_cells r ;; tl <- text_rows rest ;; Some (cells :: tl)
  end.

(** Python's order on text: lexicographic by code point. *)
Fixpoint str_compare (a b : str) : comparison :=
  match a, b with
  | [], [] => Eq
  | [], _ :: _ => Lt
  | _ :: _, [] => Gt
  | x :: a', y :: b' =>
      match N.compare x y with
      | Eq => str_compare a' b'
      | c => c
      end
  end.

Fixpoint insert_key (k : str) (keys : list str) : list str :=
  match keys with
  | [] => [k]
  | h :: rest =>
      match str_compare k h with
      | Lt => k :: keys
      | Eq => keys
      | Gt => h :: insert_key k rest
      end
  end.

(** The group keys of a [groupby]: the distinct values, sorted. *)
Definition group_keys (values : list str) : list str :=
  fold_right insert_key [] values.

(** The rows of one group, without the key cell, in their original order. *)
Definition group_rows (k : str) (rows : list (list str)) : list (list str) :=
  map (@tl str) (filter (fun r => str_eqb (hd [] r) k) rows).

(** [agg(lambda col: ', '.join(col))] over the [ncols] columns of a group. *)
Definition agg_join (ncols : nat) (group : list (list str)) : list str :=
  map (fun j => join (py ", ") (map (fun r => nth j r []) group)) (seq 0 ncols).

(** [df[label] = v]: overwrite the column if the label exists, else append it. *)
Definition assign_column (label : str) (v : value) (df : DataFrame) : DataFrame :=
  if existsb (str_eqb label) (columns df)
  then {| columns := columns df;
          data := map (fun r => map (fun lc => if str_eqb label (fst lc) then v else snd lc)
                                    (combine (columns df) r)) (data df) |}
  else {| columns := columns df ++ [label];
          data := map (fun r => r ++ [v]) (data df) |}.

(** [table_preprocessing df_table idx].  [None]: a frame without columns
    (nothing to group by) or with a cell that is not text. *)
Definition table_preprocessing (df_table : DataFrame) (idx : Z) : option DataFrame :=
  match columns df_table with
  | [] => None
  | key :: filtered_columns =>
      rows <- text_rows (map (map fill_null) (data df_table)) ;;
      let keys := group_keys (map (hd []) rows) in
      let df_grouped :=
        {| columns := key :: filtered_columns;
           data := map (fun k => VStr k ::
                                 map VStr (agg_join (length filtered_columns) (group_rows k rows)))
                       keys |} in
      Some (assign_column (py "table_num") (VInt idx) df_grouped)
  end.

(** The rows [df.apply(..., axis=1)] passes on, in order. *)
Definition iterrows (df : DataFrame) : list Series :=
  map (combine (columns df)) (data df).

Section Main.

Context {dmp : diff_match_patch}.

Fixpoint apply_rows (rows : list Series) (st : State) : option State :=
  match rows with
  | [] => Some st
  | row :: rest => st' <- check_for_change row st ;; apply_rows rest st'
  end.

(** The loop of [main] over [enumerate(tables)], from index [idx]. *)
Fixpoint main_loop (idx : Z) (tables : list DataFrame) (st : State) : option State :=
  match tables with
  | [] => Some st
  | df_table :: rest =>
      df <- table_preprocessing df_table idx ;;
      st' <- apply_rows (iterrows df) st ;;
      main_loop (idx + 1) rest st'
  end.

End Main.

(** ** The run *)

(** [setup_sqlite]: the file [bot.db] holds no [CareerCenter] table yet
    ([None]) or the table of an earlier run; the table is created if it is
    absent and the connection starts with everything committed. *)
Definition setup_sqlite (file : option Sqlite.Table) : Sqlite.Connection :=
  let tbl := match file with
             | Some tbl => tbl
             | None => []
             end in
  Sqlite.commit (Sqlite.mkConn tbl tbl).

Section Run.

Context {dmp : diff_match_patch}.

(** [main], from [setup_sqlite] on: [tables] is what [pd.read_html(URL)]
    returned, the result is the table left in [bot.db] by [conn.close()]
    (what was committed) and what was printed.  [setup_bot], which reads
    the token for a bot the program never sends with, is left out: the run
    modelled is one whose [config.json] is in place. *)
Definition main (file : option Sqlite.Table) (tables : list DataFrame)
    : option (Sqlite.Table * list str) :=
  st <- main_loop 0 tables (mkState (setup_sqlite file) []) ;;
  Some (Sqlite.committed (conn st), stdout st).

End Run.

(** ** A small differ

    One differ that keeps the contract above, to run the detector on sample
    data: it trims the common prefix and suffix of the two texts and reports
    what is left of the old text as deleted and of the new text as inserted;
    its cleanup changes nothing. *)

(** The longest common prefix of two texts and what follows it in each. *)
Fixpoint split_prefix (a b : str) : str * (str * str) :=
  match a, b with
  | x :: a', y :: b' =>
      if N.eqb x y
      then let r := split_prefix a' b' in (x :: fst r, snd r)
      else ([], (a, b))
  | _, _ => ([], (a, b))
  end.

Definition span (op : Z) (text : str) : Diff :=
  match text with
  | [] => []
  | _ => [(op, text)]
  end.

(** Common prefix, deleted middle, inserted middle, common suffix. *)
Definition trim_diff (text1 text2 : str) : Diff :=
  let front := split_prefix text1 text2 in
  let back := split_prefix (rev (fst (snd front))) (rev (snd (snd front))) in
  span 0 (fst front) ++ span (-1) (rev (fst (snd back)))
    ++ span 1 (rev (snd (snd back))) ++ span 0 (rev (fst back)).

Definition trim_dmp : diff_match_patch :=
  {| diff_main := trim_diff; diff_cleanupSemantic := fun diffs => diffs |}.

(** ** Vocabulary of the statements *)

(** [v] is what [parse_row] reads for [token]: the cell of the first column
    whose label contains the token, or [''] when no label does. *)
Definition first_match (token : str) (row : Series) (v : value) : Prop :=
  (exists before label after,
      row = before ++ (label, v) :: after
      /\ contains token label = true
      /\ Forall (fun entry => contains token (fst entry) = false) before)
  \/ (Forall (fun entry => contains token (fst entry) = false) row /\ v = VStr []).

(** What a deleted text looks like once rendered: every character but the
    last is followed by a space and U+0336, the last by U+0336 alone; an
    empty deleted text is a lone U+0336. *)
Definition struck_through (text : str) : str :=
  match text with
  | [] => [822%N]
  | c :: rest => c :: flat_map (fun c' => [32%N; 822%N; c']) rest ++ [822%N]
  end.

(** What one span looks like once rendered: equal text unchanged, deleted
    text struck through, inserted text between two asterisks on each side. *)
Definition rendered_span (elem : Z * str) : str :=
  match fst elem with
  | 0 => snd elem
  | -1 => struck_through (snd elem)
  | 1 => [42%N; 42%N] ++ snd elem ++ [42%N; 42%N]
  | _ => []
  end.

(** What a diff looks like once rendered: its spans, rendered, in order. *)
Definition rendered (diff : Diff) : str := flat_map rendered_span diff.

(** The seven fields a message shows, in the order of [titles]. *)
Definition shown_fields (r : Sqlite.CareerCenter) : list str :=
  [Sqlite.Thema r; Sqlite.Zeitlicher_Umfang r; Sqlite.Anerkennung r; Sqlite.Termin r;
   Sqlite.Uhrzeit r; Sqlite.Raum r; Sqlite.Anmeldung r].

(** The text [generate_message] composes from seven texts. *)
Definition message_text (infos : list str) : str :=
  concat (map (fun ti => fst ti ++ py ": " ++ snd ti ++ [10%N]) (combine titles infos)).

(** The lines of a message after the first. *)
Definition message_text_tail (infos : list str) : str :=
  concat (map (fun ti => fst ti ++ py ": " ++ snd ti ++ [10%N]) (combine (tl titles) infos)).

Definition separator : str := py "--------------".

(** The record an UPDATE leaves under a key. *)
Definition updated (r : Sqlite.CareerCenter) (ue bv termine uhrzeit raum anmeldung : str)
    : Sqlite.CareerCenter :=
  Sqlite.mkRow (Sqlite.Thema r) ue bv termine uhrzeit raum anmeldung (Sqlite.table_num r).

(** The primary key of a record. *)
Definition primary_key (r : Sqlite.CareerCenter) : str * Z :=
  (Sqlite.Thema r, Sqlite.table_num r).

(** No two records of the table have the same primary key. *)
Definition keys_unique (tbl : Sqlite.Table) : Prop :=
  NoDup (map primary_key tbl).

(** A record is stored under the key [(topic, n)]. *)
Definition stored (tbl : Sqlite.Table) (topic : str) (n : Z) : Prop :=
  Sqlite.fetchone (Sqlite.select tbl topic n) <> None.

(** The store holds no record with a blank Thema: true of the empty table
    and kept by [check_for_change]. *)
Definition topics_not_blank (tbl : Sqlite.Table) : Prop :=
  Forall (fun r => strip (Sqlite.Thema r) <> []) tbl.

Section DetectorVocabulary.

Context {dmp : diff_match_patch}.

(** The change signal of a field is not zero. *)
Definition field_changed (entry_db entry_html : str) : bool :=
  (0 <? num_changed_elements (calc_str_diff entry_db entry_html))%nat.

(** What the result record shows for a field: the rendered diff when the
    field changed, the stored text when it did not. *)
Definition result_field (entry_db entry_html : str) : str :=
  if field_changed entry_db entry_html
  then generate_pretty_diff (calc_str_diff entry_db entry_html)
  else entry_db.

Definition result_fields (r_db r_html : Sqlite.CareerCenter) : list str :=
  map (fun p => result_field (fst p) (snd p))
      (combine (shown_fields r_db) (shown_fields r_html)).

Definition any_field_changed (r_db r_html : Sqlite.CareerCenter) : bool :=
  existsb (fun p => field_changed (fst p) (snd p))
          (combine (shown_fields r_db) (shown_fields r_html)).

(** What a "changed entry" message shows for a field, stated from the
    diff alone: the stored text when the change signal is zero, the
    rendered diff otherwise. *)
Definition reported_field (entry_db entry_html : str) : str :=
  match num_changed_elements (calc_str_diff entry_db entry_html) with
  | O => entry_db
  | S _ => rendered (calc_str_diff entry_db entry_html)
  end.

Definition reported_fields (r_db r_html : Sqlite.CareerCenter) : list str :=
  [reported_field (Sqlite.Thema r_db) (Sqlite.Thema r_html);
   reported_field (Sqlite.Zeitlicher_Umfang r_db) (Sqlite.Zeitlicher_Umfang r_html);
   reported_field (Sqlite.Anerkennung r_db) (Sqlite.Anerkennung r_html);
   reported_field (Sqlite.Termin r_db) (Sqlite.Termin r_html);
   reported_field (Sqlite.Uhrzeit r_db) (Sqlite.Uhrzeit r_html);
   reported_field (Sqlite.Raum r_db) (Sqlite.Raum r_html);
   reported_field (Sqlite.Anmeldung r_db) (Sqlite.Anmeldung r_html)].

(** The same over the six fields that are not part of the primary key. *)
Definition any_nonkey_field_changed (r_db r_html : Sqlite.CareerCenter) : bool :=
  existsb (fun p => field_changed (fst p) (snd p))
          (combine (tl (shown_fields r_db)) (tl (shown_fields r_html))).

(** One pair of the loop of [check_for_change]: whether it counts as a
    change, and what it adds to [result]. *)
Definition entry_changed (pair : value * value) : bool :=
  field_changed (py_str (fst pair)) (py_str (snd pair)).

Definition entry_shown (pair : value * value) : value :=
  if entry_changed pair
  then VStr (generate_pretty_diff (calc_str_diff (py_str (fst pair)) (py_str (snd pair))))
  else fst pair.

End DetectorVocabulary.

(** The tokens of [parse_row], in the order of the tuple it returns. *)
Definition known_tokens : list str :=
  [py "Thema"; py "(UE)"; py "Anerkennung"; py "Termin"; py "Uhrzeit"; py "Raum";
   py "Anmeldung"; py "table_num"].

(** Strictly increasing in Python's order on text. *)
Definition increasing (keys : list str) : Prop :=
  StronglySorted (fun a b => str_compare a b = Lt) keys.

(** The key under which [check_for_change] looks a row up, as the cells
    [parse_row] read. *)
Definition row_key (row : Series) : value * value :=
  (thema (parse_row row), table_num (parse_row row)).

(** The rows one run hands to the detector, table after table, when every
    table passes [table_preprocessing]. *)
Fixpoint all_rows (idx : Z) (tables : list DataFrame) : option (list Series) :=
  match tables with
  | [] => Some []
  | df_table :: rest =>
      df <- table_preprocessing df_table idx ;;
      rows <- all_rows (idx + 1) rest ;;
      Some (iterrows df ++ rows)
  end.

(** A value [generate_message] can concatenate to a title. *)
Definition is_text (v : value) : bool :=
  match v with
  | VStr _ => true
  | _ => false
  end.

(** The text of the first cell of a scraped row, [''] when it is missing. *)
Definition first_text (cells : list value) : str :=
  match cells with
  | VStr s :: _ => s
  | _ => []
  end.

(** An entry of a row after [table_preprocessing]: the index of the table
    under the label [table_num], text under every other label. *)
Definition grouped_entry (idx : Z) (entry : str * value) : Prop :=
  if str_eqb (py "table_num") (fst entry)
  then snd entry = VInt idx
  else is_text (snd entry) = true.

(** What follows the Thema in a row after [table_preprocessing]: the joined
    cells of the group under their labels, and the index of the table. *)
Definition grouped_tail (idx : Z) (filtered_columns : list str) (aggs : list str) : Series :=
  if existsb (str_eqb (py "table_num")) filtered_columns
  then map (fun lc => (fst lc, if str_eqb (py "table_num") (fst lc) then VInt idx else snd lc))
           (combine filtered_columns (map VStr aggs))
  else combine filtered_columns (map VStr aggs) ++ [(py "table_num", VInt idx)].

(** A scraped cell: text or missing, never a number. *)
Definition scraped_cell (v : value) : bool :=
  match v with
  | VInt _ => false
  | _ => true
  end.

(** A label that carries the token [table_num] is the label [table_num]. *)
Definition plain_label (label : str) : bool :=
  implb (contains (py "table_num") label) (str_eqb (py "table_num") label).

(** A table as the page gives it: its first column is the Thema column, no
    label hides the [table_num] column, and every cell is text or missing. *)
Definition scraped_table (df : DataFrame) : bool :=
  match columns df with
  | [] => false
  | key :: _ => contains (py "Thema") key
  end
  && forallb plain_label (columns df)
  && forallb (forallb scraped_cell) (data df).

(** ** Sample data *)

(** A row of the first table of the page, as [table_preprocessing] leaves it. *)
Definition sample_row (topic duration : str) : Series :=
  [(py "Thema", VStr topic);
   (py "Zeitlicher Umfang (UE)", VStr duration);
   (py "Anerkennung", VStr (py "BV"));
   (py "Termin(e)", VStr (py "01.04."));
   (py "Uhrzeit", VStr (py "9:45"));
   (py "Raum", VStr (py "A 305"));
   (py "Anmeldung", VStr (py "online"));
   (py "table_num", VInt 0)].

(** The record that row normalizes to. *)
Definition sample_record (topic duration : str) : Sqlite.CareerCenter :=
  Sqlite.mkRow topic duration (py "BV") (py "01.04.") (py "9:45") (py "A 305")
               (py "online") 0.

(** A freshly created database and nothing printed yet. *)
Definition empty_state : State := mkState (Sqlite.mkConn [] []) [].

(** A database that holds one committed record. *)
Definition state_with (r : Sqlite.CareerCenter) : State :=
  mkState (Sqlite.mkConn [r] [r]) [].

(** A row none of whose columns carries a known token. *)
Definition unknown_columns_row : Series :=
  [(py "Dozent", VStr (py "N.N.")); (py "Ort", VStr (py "Mannheim"))].

(** A scraped table in which two rows share the Thema and one cell is missing. *)
Definition sample_table : DataFrame :=
  {| columns := [py "Thema"; py "Raum"];
     data := [[VStr (py "Bewerbung"); VStr (py "A 305")];
              [VStr (py "Assessment"); VNull];
              [VStr (py "Bewerbung"); VStr (py "B 101")]] |}.

(** A page with two tables that list the same courses. *)
Definition sample_page : list DataFrame := [sample_table; sample_table].

(** A scraped table whose first column is a category, not the Thema. *)
Definition categorized_table : DataFrame :=
  {| columns := [py "Kategorie"; py "Thema"; py "Raum"];
     data := [[VStr (py "Beruf"); VStr (py "Bewerbung"); VStr (py "A 305")];
              [VStr (py "Studium"); VStr (py "Bewerbung"); VStr (py "B 101")]] |}.

(** * Theorems *)

(** ** Text *)

Lemma str_eqb_eq (a b : str) : str_eqb a b = true <-> a = b.
Proof.
  unfold str_eqb. destruct (str_eq_dec a b) as [e | ne]; split; intro H;
    solve [assumption | reflexivity | discriminate | contradiction].
Qed.

Lemma str_eqb_refl (a : str) : str_eqb a a = true.
Proof. apply str_eqb_eq. reflexivity. Qed.

Lemma str_eqb_neq (a b : str) : str_eqb a b = false <-> a <> b.
Proof.
  unfold str_eqb. destruct (str_eq_dec a b) as [e | ne]; split; intro H;
    solve [assumption | reflexivity | discriminate | contradiction].
Qed.

(** ** Diffs *)

Lemma num_changed_zero (diff : Diff) :
  num_changed_elements diff = 0%nat <-> Forall (fun elem => fst elem = 0) diff.
Proof.
  unfold num_changed_elements. induction diff as [| [op text] rest IH]; simpl.
  - split; auto.
  - destruct (Z.eqb_spec op 0) as [e | ne]; simpl.
    + rewrite IH. split; intro H.
      * constructor; assumption.
      * inversion H; assumption.
    + split; intro H.
      * discriminate.
      * inversion H; subst. simpl in *. contradiction.
Qed.

Lemma equalities_same_text (diff : Diff) :
  Forall (fun elem => fst elem = 0) diff -> diff_text1 diff = diff_text2 diff.
Proof.
  unfold diff_text1, diff_text2. induction 1 as [| [op text] rest Hop _ IH]; simpl.
  - reflexivity.
  - simpl in Hop. subst op. simpl. rewrite IH. reflexivity.
Qed.

Lemma equalities_well_tagged (diff : Diff) :
  Forall (fun elem => fst elem = 0) diff -> well_tagged diff.
Proof.
  unfold well_tagged. apply Forall_impl. intros elem H. right; left; exact H.
Qed.

(** On a well-tagged diff, "equal or inserted" is "not deleted", and "equal
    or deleted" is "not inserted". *)
Lemma spans_tagged_text2 (diff : Diff) :
  well_tagged diff -> payloads (spans_tagged [0; 1] diff) = diff_text2 diff.
Proof.
  unfold payloads, spans_tagged, diff_text2.
  induction 1 as [| [op text] rest Hop _ IH]; simpl in *.
  - reflexivity.
  - destruct Hop as [-> | [-> | ->]]; simpl; rewrite IH; reflexivity.
Qed.

Lemma spans_tagged_text1 (diff : Diff) :
  well_tagged diff -> payloads (spans_tagged [0; -1] diff) = diff_text1 diff.
Proof.
  unfold payloads, spans_tagged, diff_text1.
  induction 1 as [| [op text] rest Hop _ IH]; simpl in *.
  - reflexivity.
  - destruct Hop as [-> | [-> | ->]]; simpl; rewrite IH; reflexivity.
Qed.

Section DifferFacts.

Context {dmp : diff_match_patch} {spec : diff_match_patch_spec dmp}.

Lemma diff_main_same_equalities (text : str) :
  Forall (fun elem => fst elem = 0) (diff_main text text).
Proof. apply diff_main_same. Qed.

Lemma calc_str_diff_same (text : str) :
  num_changed_elements (calc_str_diff text text) = 0%nat.
Proof.
  apply num_changed_zero. unfold calc_str_diff.
  apply diff_cleanupSemantic_equalities, diff_main_same_equalities.
Qed.

Lemma calc_str_diff_text1 (old new : str) :
  diff_text1 (calc_str_diff old new) = old.
Proof.
  unfold calc_str_diff.
  rewrite diff_cleanupSemantic_text1 by apply diff_main_tags.
  apply diff_main_text1.
Qed.

Lemma calc_str_diff_text2 (old new : str) :
  diff_text2 (calc_str_diff old new) = new.
Proof.
  unfold calc_str_diff.
  rewrite diff_cleanupSemantic_text2 by apply diff_main_tags.
  apply diff_main_text2.
Qed.

Lemma calc_str_diff_tags (old new : str) : well_tagged (calc_str_diff old new).
Proof. apply diff_cleanupSemantic_tags, diff_main_tags. Qed.

(** C3. With a differ that keeps the library's contract, the change signal
    of [calc_str_diff old new], the number of pieces whose operation is
    not "equal", is zero exactly when [old] and [new] are the same text. *)
Theorem change_signal_zero_iff_same (old new : str) :
  num_changed_elements (calc_str_diff old new) = 0%nat <-> old = new.
Proof.
  split.
  - intro H. apply num_changed_zero in H.
    rewrite <- (calc_str_diff_text1 old new) at 1.
    rewrite <- (calc_str_diff_text2 old new) at 2.
    apply equalities_same_text, H.
  - intros ->. apply calc_str_diff_same.
Qed.

(** C4. With a differ that keeps the library's contract, the texts of the
    equal and inserted pieces of [calc_str_diff old new], concatenated in
    order, give [new], and those of the equal and deleted pieces give
    [old]. *)
Theorem diff_rebuilds_both_texts (old new : str) :
  payloads (spans_tagged [0; 1] (calc_str_diff old new)) = new
  /\ payloads (spans_tagged [0; -1] (calc_str_diff old new)) = old.
Proof.
  split.
  - rewrite spans_tagged_text2 by apply calc_str_diff_tags.
    apply calc_str_diff_text2.
  - rewrite spans_tagged_text1 by apply calc_str_diff_tags.
    apply calc_str_diff_text1.
Qed.

End DifferFacts.

(** ** The small differ keeps the contract *)

Lemma split_prefix_texts (a b : str) :
  a = fst (split_prefix a b) ++ fst (snd (split_prefix a b))
  /\ b = fst (split_prefix a b) ++ snd (snd (split_prefix a b)).
Proof.
  revert b. induction a as [| x a IH]; intros [| y b]; simpl; auto.
  destruct (N.eqb_spec x y) as [-> | ne]; simpl; auto.
  destruct (IH b) as [Ha Hb]. split; f_equal; assumption.
Qed.

Lemma split_prefix_same (a : str) : split_prefix a a = (a, ([], [])).
Proof.
  induction a as [| x a IH]; simpl.
  - reflexivity.
  - rewrite N.eqb_refl, IH. reflexivity.
Qed.

Lemma diff_text1_app (d1 d2 : Diff) : diff_text1 (d1 ++ d2) = diff_text1 d1 ++ diff_text1 d2.
Proof. unfold diff_text1. rewrite filter_app, map_app, concat_app. reflexivity. Qed.

Lemma diff_text2_app (d1 d2 : Diff) : diff_text2 (d1 ++ d2) = diff_text2 d1 ++ diff_text2 d2.
Proof. unfold diff_text2. rewrite filter_app, map_app, concat_app. reflexivity. Qed.

Lemma diff_text1_span (op : Z) (text : str) :
  diff_text1 (span op text) = if op =? 1 then [] else text.
Proof.
  unfold diff_text1, span. destruct text as [| c text]; simpl.
  - destruct (op =? 1); reflexivity.
  - destruct (op =? 1); simpl; rewrite ?app_nil_r; reflexivity.
Qed.

Lemma diff_text2_span (op : Z) (text : str) :
  diff_text2 (span op text) = if op =? -1 then [] else text.
Proof.
  unfold diff_text2, span. destruct text as [| c text]; simpl.
  - destruct (op =? -1); reflexivity.
  - destruct (op =? -1); simpl; rewrite ?app_nil_r; reflexivity.
Qed.

Lemma span_well_tagged (op : Z) (text : str) :
  op = -1 \/ op = 0 \/ op = 1 -> well_tagged (span op text).
Proof.
  intro H. unfold well_tagged, span. destruct text; [constructor |].
  constructor; [exact H | constructor].
Qed.

Lemma trim_diff_text1 (text1 text2 : str) : diff_text1 (trim_diff text1 text2) = text1.
Proof.
  unfold trim_diff.
  destruct (split_prefix_texts text1 text2) as [H1 _].
  destruct (split_prefix_texts (rev (fst (snd (split_prefix text1 text2))))
                               (rev (snd (snd (split_prefix text1 text2))))) as [H2 _].
  rewrite !diff_text1_app, !diff_text1_span. simpl.
  rewrite <- rev_app_distr, <- H2, rev_involutive. symmetry. exact H1.
Qed.

Lemma trim_diff_text2 (text1 text2 : str) : diff_text2 (trim_diff text1 text2) = text2.
Proof.
  unfold trim_diff.
  destruct (split_prefix_texts text1 text2) as [_ H1].
  destruct (split_prefix_texts (rev (fst (snd (split_prefix text1 text2))))
                               (rev (snd (snd (split_prefix text1 text2))))) as [_ H2].
  rewrite !diff_text2_app, !diff_text2_span. simpl.
  rewrite <- rev_app_distr, <- H2, rev_involutive. symmetry. exact H1.
Qed.

Lemma trim_diff_tags (text1 text2 : str) : well_tagged (trim_diff text1 text2).
Proof.
  unfold trim_diff, well_tagged.
  repeat (apply Forall_app; split); apply span_well_tagged; auto.
Qed.

Lemma trim_diff_same (text : str) :
  trim_diff text text = match text with [] => [] | _ => [(0, text)] end.
Proof.
  unfold trim_diff. rewrite split_prefix_same. simpl.
  rewrite app_nil_r. reflexivity.
Qed.

Lemma trim_dmp_spec : diff_match_patch_spec trim_dmp.
Proof.
  constructor; simpl; intros; auto using trim_diff_tags, trim_diff_text1, trim_diff_text2.
  rewrite trim_diff_same. destruct text; repeat constructor.
Qed.

(** C3 at the texts ["10"] and ["12"], with the small differ. *)
Lemma change_signal_zero_iff_same_witness :
  num_changed_elements (@calc_str_diff trim_dmp (py "10") (py "12")) = 0%nat
  <-> py "10" = py "12".
Proof.
  exact (@change_signal_zero_iff_same trim_dmp trim_dmp_spec (py "10") (py "12")).
Defined.

(** C4 at the texts ["10"] and ["12"], with the small differ. *)
Lemma diff_rebuilds_both_texts_witness :
  payloads (spans_tagged [0; 1] (@calc_str_diff trim_dmp (py "10") (py "12"))) = py "12"
  /\ payloads (spans_tagged [0; -1] (@calc_str_diff trim_dmp (py "10") (py "12"))) = py "10".
Proof.
  exact (@diff_rebuilds_both_texts trim_dmp trim_dmp_spec (py "10") (py "12")).
Defined.

(** ** The table *)

Lemma fetchone_select_some (tbl : Sqlite.Table) (topic : str) (n : Z) (r : Sqlite.CareerCenter) :
  Sqlite.fetchone (Sqlite.select tbl topic n) = Some r ->
  In r tbl /\ Sqlite.Thema r = topic /\ Sqlite.table_num r = n.
Proof.
  unfold Sqlite.select. intro H.
  assert (Hin : In r (filter (Sqlite.where_key topic n) tbl)).
  { destruct (filter (Sqlite.where_key topic n) tbl) as [| r' rest]; simpl in H.
    - discriminate.
    - injection H as ->. left; reflexivity. }
  apply filter_In in Hin. destruct Hin as [Hin Hkey].
  unfold Sqlite.where_key in Hkey. apply andb_true_iff in Hkey.
  destruct Hkey as [Ht Hn]. apply str_eqb_eq in Ht. apply Z.eqb_eq in Hn. auto.
Qed.

Lemma fetchone_select_none (tbl : Sqlite.Table) (topic : str) (n : Z) :
  Sqlite.fetchone (Sqlite.select tbl topic n) = None ->
  existsb (Sqlite.where_key topic n) tbl = false.
Proof.
  unfold Sqlite.select. induction tbl as [| r tbl IH]; simpl; intro H.
  - reflexivity.
  - destruct (Sqlite.where_key topic n r); simpl in *.
    + discriminate.
    + apply IH, H.
Qed.

Lemma where_key_updated (topic : str) (n : Z) (key_topic : str) (key_n : Z)
    (ue bv termine uhrzeit raum anmeldung : str) (r : Sqlite.CareerCenter) :
  Sqlite.where_key topic n
    (if Sqlite.where_key key_topic key_n r
     then updated r ue bv termine uhrzeit raum anmeldung else r)
  = Sqlite.where_key topic n r.
Proof. destruct (Sqlite.where_key key_topic key_n r); reflexivity. Qed.

Lemma select_update (tbl : Sqlite.Table) (topic : str) (n : Z) (key_topic : str) (key_n : Z)
    (ue bv termine uhrzeit raum anmeldung : str) :
  Sqlite.select
    (map (fun r => if Sqlite.where_key key_topic key_n r
                   then updated r ue bv termine uhrzeit raum anmeldung else r) tbl)
    topic n
  = map (fun r => if Sqlite.where_key key_topic key_n r
                  then updated r ue bv termine uhrzeit raum anmeldung else r)
        (Sqlite.select tbl topic n).
Proof.
  unfold Sqlite.select. induction tbl as [| r tbl IH]; simpl.
  - reflexivity.
  - rewrite where_key_updated.
    destruct (Sqlite.where_key topic n r); simpl; rewrite IH; reflexivity.
Qed.

Lemma update_done (tbl : Sqlite.Table) (ue bv termine uhrzeit raum anmeldung topic : str)
    (n : Z) :
  Sqlite.update tbl ue bv termine uhrzeit raum anmeldung topic n
  = Sqlite.Done (map (fun r => if Sqlite.where_key topic n r
                               then updated r ue bv termine uhrzeit raum anmeldung else r) tbl).
Proof. reflexivity. Qed.

Lemma where_key_neq (topic topic' : str) (n n' : Z) (r : Sqlite.CareerCenter) :
  (topic', n') <> (topic, n) ->
  Sqlite.where_key topic n r = true -> Sqlite.where_key topic' n' r = false.
Proof.
  unfold Sqlite.where_key. intros Hne H.
  apply andb_true_iff in H. destruct H as [Ht Hn].
  apply str_eqb_eq in Ht. apply Z.eqb_eq in Hn.
  apply andb_false_iff.
  destruct (str_eq_dec (Sqlite.Thema r) topic') as [e | ne].
  - right. apply Z.eqb_neq. intro e'. apply Hne. congruence.
  - left. apply str_eqb_neq, ne.
Qed.

Lemma fetchone_after_update (tbl : Sqlite.Table)
    (ue bv termine uhrzeit raum anmeldung topic : str) (n : Z) (r : Sqlite.CareerCenter) :
  Sqlite.fetchone (Sqlite.select tbl topic n) = Some r ->
  Sqlite.fetchone
    (Sqlite.select
       (map (fun r => if Sqlite.where_key topic n r
                      then updated r ue bv termine uhrzeit raum anmeldung else r) tbl)
       topic n)
  = Some (Sqlite.mkRow topic ue bv termine uhrzeit raum anmeldung n).
Proof.
  intro H. rewrite select_update.
  destruct (fetchone_select_some _ _ _ _ H) as [_ [Ht Hn]].
  destruct (Sqlite.select tbl topic n) as [| r' rest]; simpl in *.
  - discriminate.
  - injection H as ->.
    assert (Hkey : Sqlite.where_key topic n r = true).
    { unfold Sqlite.where_key. rewrite Ht, Hn, str_eqb_refl, Z.eqb_refl. reflexivity. }
    rewrite Hkey. unfold updated. rewrite Ht, Hn. reflexivity.
Qed.

(** C8, as the UPDATE statement behaves.  It never fails: it rewrites the
    six fields that are not part of the key in the record stored under
    [(topic, n)] and leaves the records under every other key as they are;
    when no record has the key the table stays as it is and no error is
    raised. *)
Theorem update_rewrites_fields_or_nothing (tbl : Sqlite.Table)
    (ue bv termine uhrzeit raum anmeldung topic : str) (n : Z) :
  exists tbl',
    Sqlite.update tbl ue bv termine uhrzeit raum anmeldung topic n = Sqlite.Done tbl'
    /\ (forall r, Sqlite.fetchone (Sqlite.select tbl topic n) = Some r ->
                  Sqlite.fetchone (Sqlite.select tbl' topic n)
                  = Some (Sqlite.mkRow topic ue bv termine uhrzeit raum anmeldung n))
    /\ (forall topic' n', (topic', n') <> (topic, n) ->
                          Sqlite.select tbl' topic' n' = Sqlite.select tbl topic' n')
    /\ (Sqlite.fetchone (Sqlite.select tbl topic n) = None -> tbl' = tbl).
Proof.
  eexists. split; [apply update_done |]. split; [| split].
  - intros r H. apply (fetchone_after_update _ _ _ _ _ _ _ _ _ _ H).
  - intros topic' n' Hne. rewrite select_update.
    unfold Sqlite.select. induction tbl as [| r tbl IH]; simpl.
    + reflexivity.
    + destruct (Sqlite.where_key topic' n' r) eqn:Hk'; simpl; [| exact IH].
      rewrite IH. f_equal.
      destruct (Sqlite.where_key topic n r) eqn:Hk; [| reflexivity].
      rewrite (where_key_neq topic topic' n n' r Hne Hk) in Hk'. discriminate.
  - intro H. apply fetchone_select_none in H.
    induction tbl as [| r tbl IH]; simpl in *.
    + reflexivity.
    + apply orb_false_iff in H. destruct H as [Hr Htbl].
      rewrite Hr, (IH Htbl). reflexivity.
Qed.

(** C8 as stated fails: on the empty table no record has the key
    [("X", 0)], and the UPDATE returns normally. *)
Lemma update_missing_key_is_no_error :
  Sqlite.fetchone (Sqlite.select [] (py "X") 0) = None
  /\ Sqlite.update [] (py "12") [] [] [] [] [] (py "X") 0 = Sqlite.Done []
  /\ Sqlite.update [] (py "12") [] [] [] [] [] (py "X") 0 <> Sqlite.IntegrityError.
Proof.
  split; [reflexivity |]. split; [reflexivity |]. discriminate.
Qed.

(** ** Rows and messages *)

Lemma bind_row_inv (p : Parsed) (r : Sqlite.CareerCenter) :
  bind_row p = Some r ->
  p = mkParsed (VStr (Sqlite.Thema r)) (VStr (Sqlite.Zeitlicher_Umfang r))
        (VStr (Sqlite.Anerkennung r)) (VStr (Sqlite.Termin r)) (VStr (Sqlite.Uhrzeit r))
        (VStr (Sqlite.Raum r)) (VStr (Sqlite.Anmeldung r)) (VInt (Sqlite.table_num r)).
Proof.
  destruct p as [t u b d z ro a n]. unfold bind_row. simpl.
  destruct t; simpl; try discriminate.
  destruct u; simpl; try discriminate.
  destruct b; simpl; try discriminate.
  destruct d; simpl; try discriminate.
  destruct z; simpl; try discriminate.
  destruct ro; simpl; try discriminate.
  destruct a; simpl; try discriminate.
  destruct n; simpl; try discriminate.
  intro H. injection H as <-. reflexivity.
Qed.

Lemma bind_row_items (p : Parsed) (r : Sqlite.CareerCenter) :
  bind_row p = Some r -> items p = Sqlite.as_tuple r.
Proof. intro H. rewrite (bind_row_inv p r H). reflexivity. Qed.

Lemma as_tuple_shown_fields (r : Sqlite.CareerCenter) :
  Sqlite.as_tuple r = map VStr (shown_fields r) ++ [VInt (Sqlite.table_num r)].
Proof. reflexivity. Qed.

(** A row in which some column gives a text that is not empty is not a row
    of missing cells only. *)
Lemma get0_text_not_all_null (token : str) (row : Series) (c : N) (text : str) :
  get0 (filter_like token row) (VStr []) = VStr (c :: text) ->
  forallb isnull (map snd row) = false.
Proof.
  unfold filter_like. induction row as [| [label v] row IH]; simpl.
  - discriminate.
  - destruct (contains token label); simpl.
    + intros ->. reflexivity.
    + intro H. rewrite (IH H). apply andb_false_r.
Qed.

Lemma strip_not_nil (text : str) : strip text <> [] -> exists c rest, text = c :: rest.
Proof.
  destruct text as [| c rest].
  - intro H. exfalso. apply H. reflexivity.
  - intros _. eauto.
Qed.

Lemma message_lines_text (ts infos : list str) (extra : list value) (message : str) :
  (length ts <= length infos)%nat ->
  message_lines (combine ts (map VStr infos ++ extra)) message
  = Some (message ++ concat (map (fun ti => fst ti ++ py ": " ++ snd ti ++ [10%N])
                                 (combine ts infos))).
Proof.
  revert infos message. induction ts as [| title ts IH]; intros infos message Hlen.
  - simpl. rewrite app_nil_r. reflexivity.
  - destruct infos as [| info infos]; simpl in Hlen; [lia |].
    simpl combine. cbn [message_lines map concat fst snd].
    rewrite IH by lia. rewrite <- !app_assoc. reflexivity.
Qed.

Lemma generate_message_text (infos : list str) (extra : list value) (out : list str) :
  length infos = 7%nat ->
  generate_message (map VStr infos ++ extra) out
  = Some (out ++ [message_text infos; separator]).
Proof.
  intro Hlen. unfold generate_message, message_text.
  rewrite message_lines_text by (rewrite Hlen; simpl; lia).
  reflexivity.
Qed.

(** ** Rendering, span by span *)

Lemma generate_pretty_diff_concat (diff : Diff) (pretty_dif : str) :
  fold_left (fun pretty_dif elem => pretty_dif ++ pretty_elem elem) diff pretty_dif
  = pretty_dif ++ concat (map pretty_elem diff).
Proof.
  revert pretty_dif. induction diff as [| elem diff IH]; intro pretty_dif; simpl.
  - rewrite app_nil_r. reflexivity.
  - rewrite IH, app_assoc. reflexivity.
Qed.

Lemma join_struck (c : N) (text : str) :
  join [32%N; 822%N] (map (fun c => [c]) (c :: text)) ++ [822%N]
  = c :: flat_map (fun c' => [32%N; 822%N; c']) text ++ [822%N].
Proof.
  revert c. induction text as [| c' text IH]; intro c.
  - reflexivity.
  - change (join [32%N; 822%N] (map (fun c => [c]) (c :: c' :: text)))
      with ([c] ++ [32%N; 822%N]
              ++ join [32%N; 822%N] (map (fun c => [c]) (c' :: text))).
    rewrite <- !app_assoc, IH. reflexivity.
Qed.

Lemma pretty_elem_deleted (text : str) : pretty_elem (-1, text) = struck_through text.
Proof.
  unfold pretty_elem. cbn [fst snd].
  change (-1 =? 0) with false. change (-1 =? -1) with true. cbv iota.
  destruct text as [| c text].
  - reflexivity.
  - apply join_struck.
Qed.

Lemma pretty_elem_rendered (elem : Z * str) : pretty_elem elem = rendered_span elem.
Proof.
  destruct elem as [op text].
  destruct op as [| p | p].
  - reflexivity.
  - destruct p; reflexivity.
  - destruct p; try reflexivity. apply pretty_elem_deleted.
Qed.

(** [generate_pretty_diff] meets the render contract on every diff. *)
Lemma generate_pretty_diff_rendered (diff : Diff) :
  generate_pretty_diff diff = rendered diff.
Proof.
  unfold generate_pretty_diff, rendered.
  rewrite generate_pretty_diff_concat, flat_map_concat_map. simpl.
  f_equal. apply map_ext, pretty_elem_rendered.
Qed.

(** ** The comparison loop *)

Section LoopFacts.

Context {dmp : diff_match_patch}.

Lemma compare_entry_step (acc : list value * bool) (pair : value * value) :
  compare_entry acc pair = (fst acc ++ [entry_shown pair], snd acc || entry_changed pair).
Proof.
  unfold compare_entry, entry_shown, entry_changed, field_changed.
  destruct (0 <? num_changed_elements _)%nat.
  - rewrite orb_true_r. reflexivity.
  - rewrite orb_false_r. reflexivity.
Qed.

Lemma fold_compare_entry (pairs : list (value * value)) (result : list value)
    (change_detected : bool) :
  fold_left compare_entry pairs (result, change_detected)
  = (result ++ map entry_shown pairs, change_detected || existsb entry_changed pairs).
Proof.
  revert result change_detected.
  induction pairs as [| pair pairs IH]; intros result change_detected; simpl.
  - rewrite app_nil_r, orb_false_r. reflexivity.
  - rewrite compare_entry_step. simpl. rewrite IH.
    rewrite <- app_assoc, orb_assoc. reflexivity.
Qed.

Lemma compare_entries_eq (result_db result_html : list value) :
  compare_entries result_db result_html
  = (map entry_shown (combine result_db result_html),
     existsb entry_changed (combine result_db result_html)).
Proof. unfold compare_entries. rewrite fold_compare_entry. reflexivity. Qed.

Context {spec : diff_match_patch_spec dmp}.

Lemma field_changed_same (text : str) : field_changed text text = false.
Proof.
  unfold field_changed. rewrite calc_str_diff_same. reflexivity.
Qed.

Lemma result_field_same (text : str) : result_field text text = text.
Proof. unfold result_field. rewrite field_changed_same. reflexivity. Qed.

(** The loop on a stored record and a typed row with the same key: the
    seven texts of the result record, then the stored [table_num]; a
    change is detected when one of the six other fields changed. *)
Lemma compare_entries_same_key (r_db r_html : Sqlite.CareerCenter) :
  Sqlite.Thema r_db = Sqlite.Thema r_html ->
  Sqlite.table_num r_db = Sqlite.table_num r_html ->
  compare_entries (Sqlite.as_tuple r_db) (Sqlite.as_tuple r_html)
  = (map VStr (result_fields r_db r_html) ++ [VInt (Sqlite.table_num r_db)],
     any_nonkey_field_changed r_db r_html).
Proof.
  intros Ht Hn. rewrite compare_entries_eq.
  destruct r_db as [t1 u1 b1 d1 z1 ro1 a1 n1], r_html as [t2 u2 b2 d2 z2 ro2 a2 n2].
  simpl in Ht, Hn. subst t2 n2.
  unfold result_fields, any_nonkey_field_changed, entry_shown, entry_changed, result_field.
  cbn [Sqlite.as_tuple shown_fields combine map existsb tl fst snd py_str app
       Sqlite.Thema Sqlite.Zeitlicher_Umfang Sqlite.Anerkennung Sqlite.Termin
       Sqlite.Uhrzeit Sqlite.Raum Sqlite.Anmeldung Sqlite.table_num].
  rewrite !field_changed_same. rewrite !orb_false_r. cbn [orb].
  repeat match goal with
         | |- context [if field_changed ?a ?b then _ else _] =>
             destruct (field_changed a b)
         end; reflexivity.
Qed.

Lemma any_field_changed_nonkey (r_db r_html : Sqlite.CareerCenter) :
  Sqlite.Thema r_db = Sqlite.Thema r_html ->
  any_field_changed r_db r_html = any_nonkey_field_changed r_db r_html.
Proof.
  intro Ht. unfold any_field_changed, any_nonkey_field_changed, shown_fields.
  cbn [combine existsb tl fst snd]. rewrite Ht, field_changed_same. reflexivity.
Qed.

End LoopFacts.

(** ** The change detector *)

Section ReportFacts.

Context {dmp : diff_match_patch}.

Lemma result_field_reported (entry_db entry_html : str) :
  result_field entry_db entry_html = reported_field entry_db entry_html.
Proof.
  unfold result_field, field_changed, reported_field.
  destruct (num_changed_elements (calc_str_diff entry_db entry_html)); simpl.
  - reflexivity.
  - apply generate_pretty_diff_rendered.
Qed.

Lemma result_fields_reported (r_db r_html : Sqlite.CareerCenter) :
  result_fields r_db r_html = reported_fields r_db r_html.
Proof.
  unfold result_fields, reported_fields, shown_fields.
  cbn [combine map fst snd]. rewrite !result_field_reported. reflexivity.
Qed.

End ReportFacts.

Section DetectorFacts.

Context {dmp : diff_match_patch}.

(** C7. A row whose Thema is empty or consists of whitespace only is
    skipped: [check_for_change] returns with the connection (committed and
    uncommitted table) and the output exactly as they were. *)
Theorem blank_topic_is_skipped (row : Series) (st : State) (topic : str) :
  thema (parse_row row) = VStr topic ->
  strip topic = [] ->
  check_for_change row st = Some st.
Proof.
  intros Ht Hblank. unfold check_for_change.
  destruct (forallb isnull (map snd row)); [reflexivity |].
  cbv zeta. rewrite Ht, Hblank. reflexivity.
Qed.

(** What the detector does with a typed row that passes both guards. *)
Lemma check_for_change_typed (row : Series) (st : State) (r : Sqlite.CareerCenter) :
  bind_row (parse_row row) = Some r ->
  strip (Sqlite.Thema r) <> [] ->
  check_for_change row st
  = match Sqlite.fetchone (Sqlite.select (Sqlite.current (conn st))
                                         (Sqlite.Thema r) (Sqlite.table_num r)) with
    | None =>
        match Sqlite.insert (Sqlite.current (conn st)) r with
        | Sqlite.Done tbl =>
            out <- generate_message (Sqlite.as_tuple r) (stdout st) ;;
            Some (mkState (Sqlite.mkConn tbl tbl) out)
        | Sqlite.IntegrityError => None
        end
    | Some result_db =>
        let (result, change_detected) :=
          compare_entries (Sqlite.as_tuple result_db) (Sqlite.as_tuple r) in
        if change_detected then
          match Sqlite.update (Sqlite.current (conn st))
                  (Sqlite.Zeitlicher_Umfang r) (Sqlite.Anerkennung r)
                  (Sqlite.Termin r) (Sqlite.Uhrzeit r) (Sqlite.Raum r)
                  (Sqlite.Anmeldung r) (Sqlite.Thema r) (Sqlite.table_num r) with
          | Sqlite.Done tbl =>
              out <- generate_message result (stdout st) ;;
              Some (mkState (Sqlite.mkConn tbl tbl) out)
          | Sqlite.IntegrityError => None
          end
        else Some st
    end.
Proof.
  intros Hbind Hblank.
  pose proof (bind_row_items _ _ Hbind) as Hitems.
  pose proof (bind_row_inv _ _ Hbind) as Hp.
  destruct (strip_not_nil _ Hblank) as [c [rest Htopic]].
  assert (Hnull : forallb isnull (map snd row) = false).
  { apply (get0_text_not_all_null (py "Thema") row c rest).
    change (thema (parse_row row) = VStr (c :: rest)).
    rewrite Hp. simpl. rewrite Htopic. reflexivity. }
  unfold check_for_change. rewrite Hnull. cbv zeta.
  rewrite Hp. clear Hp Hitems Hbind Hnull.
  apply str_eqb_neq in Hblank.
  destruct r as [t u b d z ro a n].
  cbn [thema table_num py_int Sqlite.Thema Sqlite.table_num] in *.
  rewrite Hblank. reflexivity.
Qed.

(** C2, for a Thema that is not blank.  When the normalized row is a
    record of seven texts and an integer [table_num], its Thema is neither
    empty nor whitespace only, and no stored record has its key, the
    detector appends the record to the table, commits, and prints exactly
    one message: the seven fields of the record, then the separator. *)
Theorem new_entry_is_inserted_and_reported (row : Series) (st : State)
    (r : Sqlite.CareerCenter) :
  bind_row (parse_row row) = Some r ->
  strip (Sqlite.Thema r) <> [] ->
  Sqlite.fetchone (Sqlite.select (Sqlite.current (conn st))
                                 (Sqlite.Thema r) (Sqlite.table_num r)) = None ->
  check_for_change row st
  = Some {| conn := {| Sqlite.committed := Sqlite.current (conn st) ++ [r];
                       Sqlite.current := Sqlite.current (conn st) ++ [r] |};
            stdout := stdout st ++ [message_text (shown_fields r); separator] |}.
Proof.
  intros Hbind Hblank Hnone.
  rewrite (check_for_change_typed row st r Hbind Hblank), Hnone.
  unfold Sqlite.insert. rewrite (fetchone_select_none _ _ _ Hnone).
  rewrite as_tuple_shown_fields, generate_message_text by reflexivity.
  reflexivity.
Qed.

Context {spec : diff_match_patch_spec dmp}.

(** C1. In a store without blank topics (the store the detector builds and
    keeps, see [check_for_change_topics_not_blank]), a typed row whose key
    is stored and for which at least one of the seven shown fields has a
    change signal that is not zero makes the detector run the UPDATE with
    the row's own, undiffed field values, after which the key holds the
    row's record, commit, and print exactly one message: for each of the
    seven fields the stored text where the change signal of the field is
    zero and the rendered diff where it is not (equal spans as they are,
    deleted spans struck through, inserted spans between asterisks), then
    the separator. *)
Theorem changed_entry_is_updated_and_reported (row : Series) (st : State)
    (r_html r_db : Sqlite.CareerCenter) :
  topics_not_blank (Sqlite.current (conn st)) ->
  bind_row (parse_row row) = Some r_html ->
  Sqlite.fetchone (Sqlite.select (Sqlite.current (conn st))
                                 (Sqlite.Thema r_html) (Sqlite.table_num r_html))
  = Some r_db ->
  any_field_changed r_db r_html = true ->
  exists tbl,
    Sqlite.update (Sqlite.current (conn st))
      (Sqlite.Zeitlicher_Umfang r_html) (Sqlite.Anerkennung r_html) (Sqlite.Termin r_html)
      (Sqlite.Uhrzeit r_html) (Sqlite.Raum r_html) (Sqlite.Anmeldung r_html)
      (Sqlite.Thema r_html) (Sqlite.table_num r_html) = Sqlite.Done tbl
    /\ Sqlite.fetchone (Sqlite.select tbl (Sqlite.Thema r_html) (Sqlite.table_num r_html))
       = Some r_html
    /\ check_for_change row st
       = Some {| conn := {| Sqlite.committed := tbl; Sqlite.current := tbl |};
                 stdout := stdout st ++ [message_text (reported_fields r_db r_html);
                                         separator] |}.
Proof.
  intros Hstore Hbind Hfound Hchanged.
  destruct (fetchone_select_some _ _ _ _ Hfound) as [Hin [Ht Hn]].
  assert (Hblank : strip (Sqlite.Thema r_html) <> []).
  { rewrite <- Ht. unfold topics_not_blank in Hstore.
    rewrite Forall_forall in Hstore. apply Hstore, Hin. }
  eexists. split; [apply update_done |]. split.
  - rewrite (fetchone_after_update _ _ _ _ _ _ _ _ _ _ Hfound).
    destruct r_html; reflexivity.
  - rewrite (check_for_change_typed row st r_html Hbind Hblank), Hfound.
    rewrite (compare_entries_same_key r_db r_html Ht Hn).
    rewrite <- (any_field_changed_nonkey r_db r_html Ht), Hchanged, update_done.
    rewrite generate_message_text by reflexivity.
    rewrite result_fields_reported. reflexivity.
Qed.

(** C5. When the normalized row is the very record that is stored under
    its key, [check_for_change] returns with the connection and the output
    exactly as they were: nothing is written and nothing is printed. *)
Theorem same_entry_is_left_alone (row : Series) (st : State) (r : Sqlite.CareerCenter) :
  bind_row (parse_row row) = Some r ->
  Sqlite.fetchone (Sqlite.select (Sqlite.current (conn st))
                                 (Sqlite.Thema r) (Sqlite.table_num r)) = Some r ->
  check_for_change row st = Some st.
Proof.
  intros Hbind Hfound.
  destruct (str_eq_dec (strip (Sqlite.Thema r)) []) as [Hblank | Hblank].
  - unfold check_for_change.
    destruct (forallb isnull (map snd row)); [reflexivity |].
    cbv zeta. rewrite (bind_row_inv _ _ Hbind). cbn [thema].
    rewrite Hblank. reflexivity.
  - rewrite (check_for_change_typed row st r Hbind Hblank), Hfound.
    rewrite (compare_entries_same_key r r eq_refl eq_refl).
    assert (Hnone : any_nonkey_field_changed r r = false).
    { unfold any_nonkey_field_changed, shown_fields. cbn [combine existsb tl fst snd].
      rewrite !field_changed_same. reflexivity. }
    rewrite Hnone. reflexivity.
Qed.

End DetectorFacts.

Section KeyFields.

Context {dmp : diff_match_patch} {spec : diff_match_patch_spec dmp}.

Lemma message_text_topic_line (infos : list str) (topic : str) :
  message_text (topic :: infos)
  = py "Thema" ++ py ": " ++ topic ++ [10%N] ++ message_text_tail infos.
Proof.
  unfold message_text, message_text_tail, titles.
  cbn [combine map concat fst snd]. rewrite <- !app_assoc. reflexivity.
Qed.

(** C10. When the lookup finds a record for a typed row, the diffs of the
    two key fields, Thema and [table_num], have change signal zero, so the
    loop detects a change exactly when one of the six other fields
    changed; and whenever the call prints a message, its first line is
    [Thema: ] followed by the stored Thema as it is. *)
Theorem key_fields_never_count_as_changed (row : Series) (st : State)
    (r_html r_db : Sqlite.CareerCenter) :
  bind_row (parse_row row) = Some r_html ->
  Sqlite.fetchone (Sqlite.select (Sqlite.current (conn st))
                                 (Sqlite.Thema r_html) (Sqlite.table_num r_html))
  = Some r_db ->
  num_changed_elements
    (calc_str_diff (py_str (VStr (Sqlite.Thema r_db))) (py_str (thema (parse_row row))))
  = 0%nat
  /\ num_changed_elements
       (calc_str_diff (py_str (VInt (Sqlite.table_num r_db)))
                      (py_str (table_num (parse_row row))))
     = 0%nat
  /\ snd (compare_entries (Sqlite.as_tuple r_db) (items (parse_row row)))
     = any_nonkey_field_changed r_db r_html
  /\ (forall st', check_for_change row st = Some st' ->
        st' = st
        \/ exists rest,
             stdout st' = stdout st ++ [py "Thema" ++ py ": " ++ Sqlite.Thema r_db
                                          ++ [10%N] ++ rest;
                                        separator]).
Proof.
  intros Hbind Hfound.
  destruct (fetchone_select_some _ _ _ _ Hfound) as [_ [Ht Hn]].
  pose proof (bind_row_inv _ _ Hbind) as Hp.
  pose proof (bind_row_items _ _ Hbind) as Hitems.
  split; [| split; [| split]].
  - rewrite Hp. cbn [thema py_str]. rewrite Ht. apply calc_str_diff_same.
  - rewrite Hp. cbn [table_num py_str]. rewrite Hn. apply calc_str_diff_same.
  - rewrite Hitems, (compare_entries_same_key r_db r_html Ht Hn). reflexivity.
  - intros st' Hrun.
    destruct (str_eq_dec (strip (Sqlite.Thema r_html)) []) as [Hblank | Hblank].
    + left. unfold check_for_change in Hrun.
      destruct (forallb isnull (map snd row)); [congruence |].
      cbv zeta in Hrun. rewrite Hp in Hrun. cbn [thema] in Hrun.
      rewrite Hblank in Hrun. simpl in Hrun. congruence.
    + rewrite (check_for_change_typed row st r_html Hbind Hblank), Hfound in Hrun.
      rewrite (compare_entries_same_key r_db r_html Ht Hn) in Hrun.
      destruct (any_nonkey_field_changed r_db r_html); [| left; congruence].
      right. rewrite update_done in Hrun.
      rewrite generate_message_text in Hrun by reflexivity.
      injection Hrun as <-. cbn [stdout].
      unfold result_fields, shown_fields.
      cbn [combine map fst snd].
      rewrite message_text_topic_line, Ht, result_field_same.
      eexists. reflexivity.
Qed.

End KeyFields.

(** ** What the store keeps *)

Section StoreInvariant.

Context {dmp : diff_match_patch}.

(** The detector never stores a blank Thema. *)
Lemma check_for_change_topics_not_blank (row : Series) (st st' : State) :
  topics_not_blank (Sqlite.current (conn st)) ->
  check_for_change row st = Some st' ->
  topics_not_blank (Sqlite.current (conn st')).
Proof.
  intros Hstore. unfold check_for_change.
  destruct (forallb isnull (map snd row)); [intro H; injection H as <-; exact Hstore |].
  cbv zeta.
  destruct (thema (parse_row row)) as [| topic |] eqn:Htopic; try discriminate.
  destruct (str_eqb (strip topic) []) eqn:Hblank;
    [intro H; injection H as <-; exact Hstore |].
  destruct (py_int (table_num (parse_row row))) as [n |]; [| discriminate].
  destruct (Sqlite.fetchone _) as [result_db |].
  - destruct (compare_entries _ _) as [result change_detected].
    destruct change_detected; [| intro H; injection H as <-; exact Hstore].
    destruct (bind_row (parse_row row)) as [r |]; [| discriminate].
    rewrite update_done.
    destruct (generate_message result (stdout st)); [| discriminate].
    intro H. injection H as <-. cbn [conn Sqlite.commit Sqlite.current].
    unfold topics_not_blank in *. rewrite Forall_forall in *.
    intros x Hx. apply in_map_iff in Hx. destruct Hx as [y [<- Hy]].
    destruct (Sqlite.where_key _ _ y); [| apply Hstore, Hy].
    cbn [updated Sqlite.Thema]. apply Hstore, Hy.
  - destruct (bind_row (parse_row row)) as [r |] eqn:Hbind; [| discriminate].
    unfold Sqlite.insert.
    destruct (existsb _ _); [discriminate |].
    destruct (generate_message _ _); [| discriminate].
    intro H. injection H as <-. cbn [conn Sqlite.commit Sqlite.current].
    unfold topics_not_blank in *. apply Forall_app. split; [exact Hstore |].
    constructor; [| constructor].
    rewrite (bind_row_inv _ _ Hbind) in Htopic. cbn [thema] in Htopic.
    injection Htopic as ->. apply str_eqb_neq, Hblank.
Qed.

Lemma apply_rows_topics_not_blank (rows : list Series) (st st' : State) :
  topics_not_blank (Sqlite.current (conn st)) ->
  apply_rows rows st = Some st' ->
  topics_not_blank (Sqlite.current (conn st')).
Proof.
  revert st. induction rows as [| row rows IH]; intros st Hstore; simpl.
  - intro H. injection H as <-. exact Hstore.
  - destruct (check_for_change row st) as [st1 |] eqn:Hrow; [| discriminate].
    apply IH. apply (check_for_change_topics_not_blank row st st1 Hstore Hrow).
Qed.

End StoreInvariant.

(** ** The record normalizer *)

Lemma get0_first_match (token : str) (row : Series) :
  first_match token row (get0 (filter_like token row) (VStr [])).
Proof.
  unfold first_match, filter_like. induction row as [| [label v] row IH]; simpl.
  - right. split; [constructor | reflexivity].
  - destruct (contains token label) eqn:Hlabel; simpl.
    + left. exists [], label, row. repeat split; [exact Hlabel | constructor].
    + destruct IH as [[before [label' [after [Hrow [Hmatch Hbefore]]]]] | [Hnone Hdefault]].
      * left. exists ((label, v) :: before), label', after.
        split; [rewrite Hrow at 1; reflexivity |].
        split; [exact Hmatch |]. constructor; [exact Hlabel | exact Hbefore].
      * right. split; [| exact Hdefault]. constructor; [exact Hlabel | exact Hnone].
Qed.

Lemma get0_no_match (token : str) (row : Series) (default : value) :
  Forall (fun entry => contains token (fst entry) = false) row ->
  get0 (filter_like token row) default = default.
Proof.
  unfold filter_like. induction 1 as [| [label v] row Hlabel _ IH]; simpl.
  - reflexivity.
  - simpl in Hlabel. rewrite Hlabel. exact IH.
Qed.

(** C6, as [parse_row] is written.  Each of the eight fields, in the order
    Thema, UE, Anerkennung, Termin, Uhrzeit, Raum, Anmeldung, table_num, is
    the cell of the first column whose label contains the field's token, or
    the empty text when no label does; [table_num] is read the same way and
    returned as the cell holds it.  For a row none of whose labels contains
    a token, all eight fields are the empty text. *)
Theorem parse_row_reads_first_matching_columns (row : Series) :
  Forall2 (fun token v => first_match token row v) known_tokens (items (parse_row row))
  /\ (Forall (fun entry => existsb (fun token => contains token (fst entry)) known_tokens
                           = false) row ->
      parse_row row = mkParsed (VStr []) (VStr []) (VStr []) (VStr []) (VStr []) (VStr [])
                               (VStr []) (VStr [])).
Proof.
  split.
  - unfold known_tokens, items, parse_row.
    cbn [thema ue bv termine uhrzeit raum anmeldung table_num].
    repeat (constructor; [apply get0_first_match |]). constructor.
  - intro Hnone. unfold parse_row.
    assert (Htoken : forall token, In token known_tokens ->
                       Forall (fun entry => contains token (fst entry) = false) row).
    { intros token Hin. rewrite Forall_forall in *. intros entry Hentry.
      specialize (Hnone entry Hentry).
      destruct (contains token (fst entry)) eqn:Hc; [| reflexivity].
      rewrite <- Hnone. symmetry. apply existsb_exists. exists token. auto. }
    rewrite !get0_no_match by (apply Htoken; unfold known_tokens; simpl; tauto).
    reflexivity.
Qed.

(** C6 at a row with the columns Dozent and Ort only. *)
Lemma parse_row_reads_first_matching_columns_witness :
  parse_row unknown_columns_row
  = mkParsed (VStr []) (VStr []) (VStr []) (VStr []) (VStr []) (VStr []) (VStr []) (VStr []).
Proof.
  apply (proj2 (parse_row_reads_first_matching_columns unknown_columns_row)).
  repeat constructor.
Defined.

(** C6 as stated fails: for the row with the columns Dozent and Ort only,
    the last component of the tuple is the empty text, not an integer. *)
Lemma parse_row_does_not_coerce_table_num :
  table_num (parse_row unknown_columns_row) = VStr []
  /\ forall n, table_num (parse_row unknown_columns_row) <> VInt n.
Proof.
  split; [reflexivity |]. intro n. discriminate.
Qed.

(** ** The scenarios, run *)

(** C7 at a row whose Thema is two spaces. *)
Lemma blank_topic_is_skipped_witness :
  @check_for_change trim_dmp (sample_row (py "  ") (py "10")) empty_state = Some empty_state.
Proof.
  apply (@blank_topic_is_skipped trim_dmp (sample_row (py "  ") (py "10")) empty_state
           (py "  ")); reflexivity.
Defined.

(** C2 as stated fails: the Thema [" "] is not empty and its key is not in
    the empty store, yet nothing is inserted and nothing is printed. *)
Lemma whitespace_topic_is_not_inserted :
  bind_row (parse_row (sample_row (py " ") (py "10"))) = Some (sample_record (py " ") (py "10"))
  /\ Sqlite.Thema (sample_record (py " ") (py "10")) <> []
  /\ Sqlite.fetchone (Sqlite.select (Sqlite.current (conn empty_state)) (py " ") 0) = None
  /\ @check_for_change trim_dmp (sample_row (py " ") (py "10")) empty_state
     = Some empty_state.
Proof.
  split; [reflexivity |]. split; [discriminate |]. split; reflexivity.
Qed.

(** C2 at the spec's scenario: the store is empty and the row is new. *)
Lemma new_entry_is_inserted_and_reported_witness :
  @check_for_change trim_dmp (sample_row (py "Data Science Basics") (py "20")) empty_state
  = Some {| conn := {| Sqlite.committed := [sample_record (py "Data Science Basics") (py "20")];
                       Sqlite.current := [sample_record (py "Data Science Basics") (py "20")] |};
            stdout := [message_text (shown_fields
                                       (sample_record (py "Data Science Basics") (py "20")));
                       separator] |}.
Proof.
  apply (@new_entry_is_inserted_and_reported trim_dmp
           (sample_row (py "Data Science Basics") (py "20")) empty_state
           (sample_record (py "Data Science Basics") (py "20"))).
  - reflexivity.
  - vm_compute. discriminate.
  - reflexivity.
Defined.

(** C1 where the duration stored is ["10"] and the row has ["25"],
    everything else the same: the table holds the row's record, and the one
    message shows the duration as [1], a space, U+0336, [0], U+0336 and
    [**25**], every other field as stored. *)
Lemma changed_entry_is_updated_and_reported_witness :
  Sqlite.update [sample_record (py "X") (py "10")]
    (py "25") (py "BV") (py "01.04.") (py "9:45") (py "A 305") (py "online") (py "X") 0
  = Sqlite.Done [sample_record (py "X") (py "25")]
  /\ Sqlite.fetchone (Sqlite.select [sample_record (py "X") (py "25")] (py "X") 0)
     = Some (sample_record (py "X") (py "25"))
  /\ @check_for_change trim_dmp (sample_row (py "X") (py "25"))
       (state_with (sample_record (py "X") (py "10")))
     = Some {| conn := {| Sqlite.committed := [sample_record (py "X") (py "25")];
                          Sqlite.current := [sample_record (py "X") (py "25")] |};
               stdout := [py "Thema: X" ++ [10%N]
                            ++ py "UE: 1 " ++ [822%N] ++ py "0" ++ [822%N] ++ py "**25**"
                            ++ [10%N]
                            ++ py "Fakult" ++ [228%N] ++ py "t: BV" ++ [10%N]
                            ++ py "Termin(e): 01.04." ++ [10%N]
                            ++ py "Uhrzeit: 9:45" ++ [10%N]
                            ++ py "Raum: A 305" ++ [10%N]
                            ++ py "Anmeldung: online" ++ [10%N];
                          py "--------------"] |}.
Proof.
  destruct (@changed_entry_is_updated_and_reported trim_dmp trim_dmp_spec
              (sample_row (py "X") (py "25")) (state_with (sample_record (py "X") (py "10")))
              (sample_record (py "X") (py "25")) (sample_record (py "X") (py "10")))
    as [tbl [Hupdate [Hfetch Hrun]]].
  - constructor; [vm_compute; discriminate | constructor].
  - reflexivity.
  - reflexivity.
  - reflexivity.
  - assert (Htbl : tbl = [sample_record (py "X") (py "25")]).
    { vm_compute in Hupdate. injection Hupdate as Htbl. symmetry. exact Htbl. }
    subst tbl. split; [reflexivity |]. split; [reflexivity |]. exact Hrun.
Defined.

(** C5 at the spec's scenario: the row repeats the stored record. *)
Lemma same_entry_is_left_alone_witness :
  @check_for_change trim_dmp (sample_row (py "X") (py "10"))
    (state_with (sample_record (py "X") (py "10")))
  = Some (state_with (sample_record (py "X") (py "10"))).
Proof.
  apply (@same_entry_is_left_alone trim_dmp trim_dmp_spec
           (sample_row (py "X") (py "10")) (state_with (sample_record (py "X") (py "10")))
           (sample_record (py "X") (py "10"))); reflexivity.
Defined.

(** C10 at the scenario of the changed duration. *)
Lemma key_fields_never_count_as_changed_witness :
  num_changed_elements
    (@calc_str_diff trim_dmp (py_str (VStr (py "X")))
                    (py_str (thema (parse_row (sample_row (py "X") (py "12")))))) = 0%nat
  /\ num_changed_elements
       (@calc_str_diff trim_dmp (py_str (VInt 0))
                       (py_str (table_num (parse_row (sample_row (py "X") (py "12"))))))
     = 0%nat
  /\ snd (@compare_entries trim_dmp (Sqlite.as_tuple (sample_record (py "X") (py "10")))
                           (items (parse_row (sample_row (py "X") (py "12")))))
     = @any_nonkey_field_changed trim_dmp (sample_record (py "X") (py "10"))
                                 (sample_record (py "X") (py "12"))
  /\ (forall st',
        @check_for_change trim_dmp (sample_row (py "X") (py "12"))
          (state_with (sample_record (py "X") (py "10"))) = Some st' ->
        st' = state_with (sample_record (py "X") (py "10"))
        \/ exists rest,
             stdout st' = stdout (state_with (sample_record (py "X") (py "10")))
                            ++ [py "Thema" ++ py ": " ++ py "X" ++ [10%N] ++ rest; separator]).
Proof.
  apply (@key_fields_never_count_as_changed trim_dmp trim_dmp_spec
           (sample_row (py "X") (py "12")) (state_with (sample_record (py "X") (py "10")))
           (sample_record (py "X") (py "12")) (sample_record (py "X") (py "10")));
    reflexivity.
Defined.

(** The message of the changed duration, spelled out: the stored digit [1],
    the deleted [0] struck through, the inserted [2] in bold. *)
Example changed_duration_is_rendered :
  @result_fields trim_dmp (sample_record (py "X") (py "10")) (sample_record (py "X") (py "12"))
  = [py "X"; py "10" ++ [822%N] ++ py "**2**"; py "BV"; py "01.04."; py "9:45"; py "A 305";
     py "online"].
Proof. reflexivity. Qed.

(** ** Grouping *)

Lemma str_compare_eq (a b : str) : str_compare a b = Eq -> a = b.
Proof.
  revert b. induction a as [| x a IH]; intros [| y b]; simpl; try discriminate.
  - reflexivity.
  - destruct (N.compare_spec x y) as [-> | Hlt | Hgt]; try discriminate.
    intro H. f_equal. apply IH, H.
Qed.

Lemma str_compare_refl (a : str) : str_compare a a = Eq.
Proof.
  induction a as [| x a IH]; simpl.
  - reflexivity.
  - rewrite N.compare_refl. exact IH.
Qed.

Lemma str_compare_antisym (a b : str) : str_compare b a = CompOpp (str_compare a b).
Proof.
  revert b. induction a as [| x a IH]; intros [| y b]; simpl; try reflexivity.
  rewrite (N.compare_antisym x y).
  destruct (N.compare x y); simpl; try reflexivity. apply IH.
Qed.

Lemma str_compare_trans (a b c : str) :
  str_compare a b = Lt -> str_compare b c = Lt -> str_compare a c = Lt.
Proof.
  revert b c. induction a as [| x a IH]; intros [| y b] [| z c]; simpl;
    try discriminate; try reflexivity.
  destruct (N.compare_spec x y) as [-> | Hxy | Hxy]; try discriminate.
  - destruct (N.compare_spec y z) as [-> | Hyz | Hyz]; try discriminate.
    + apply IH.
    + reflexivity.
  - intros _.
    destruct (N.compare_spec y z) as [-> | Hyz | Hyz]; try discriminate.
    + intros _. apply N.compare_lt_iff in Hxy. rewrite Hxy. reflexivity.
    + intros _. assert (H : (x < z)%N) by lia.
      apply N.compare_lt_iff in H. rewrite H. reflexivity.
Qed.

Lemma insert_key_In (k x : str) (keys : list str) :
  In x (insert_key k keys) -> x = k \/ In x keys.
Proof.
  induction keys as [| h rest IH]; simpl.
  - intros [<- | []]. left; reflexivity.
  - destruct (str_compare k h).
    + intro H. right; exact H.
    + intros [<- | H]; [left; reflexivity | right; exact H].
    + intros [<- | H]; [right; left; reflexivity |].
      destruct (IH H) as [-> | Hin]; [left; reflexivity | right; right; exact Hin].
Qed.

Lemma insert_key_increasing (k : str) (keys : list str) :
  increasing keys -> increasing (insert_key k keys).
Proof.
  unfold increasing. induction 1 as [| h rest Hrest IH Hh]; simpl.
  - constructor; constructor.
  - destruct (str_compare k h) eqn:Hk.
    + constructor; assumption.
    + constructor; [constructor; assumption |].
      constructor; [exact Hk |].
      rewrite Forall_forall in *. intros x Hx.
      apply (str_compare_trans k h x Hk), Hh, Hx.
    + constructor; [exact IH |].
      rewrite Forall_forall in *. intros x Hx.
      destruct (insert_key_In k x rest Hx) as [-> | Hin].
      * rewrite str_compare_antisym, Hk. reflexivity.
      * apply Hh, Hin.
Qed.

Lemma group_keys_increasing (values : list str) : increasing (group_keys values).
Proof.
  unfold group_keys. induction values as [| v values IH]; simpl.
  - constructor.
  - apply insert_key_increasing, IH.
Qed.

Lemma increasing_NoDup (keys : list str) : increasing keys -> NoDup keys.
Proof.
  unfold increasing. induction 1 as [| h rest Hrest IH Hh].
  - constructor.
  - constructor; [| exact IH].
    intro Hin. rewrite Forall_forall in Hh. specialize (Hh h Hin).
    rewrite str_compare_refl in Hh. discriminate.
Qed.

(** The distinct values of a column are exactly its group keys. *)
Lemma insert_key_In_inv (k x : str) (keys : list str) :
  x = k \/ In x keys -> In x (insert_key k keys).
Proof.
  induction keys as [| h rest IH]; simpl.
  - intros [-> | []]. left; reflexivity.
  - destruct (str_compare k h) eqn:Hk.
    + apply str_compare_eq in Hk. subst h.
      intros [-> | H]; [left; reflexivity | exact H].
    + intros [-> | H]; [left; reflexivity | right; exact H].
    + intros [-> | [-> | H]].
      * right. apply IH. left; reflexivity.
      * left; reflexivity.
      * right. apply IH. right; exact H.
Qed.

Lemma group_keys_In (values : list str) (x : str) : In x (group_keys values) <-> In x values.
Proof.
  unfold group_keys. induction values as [| v values IH]; simpl.
  - tauto.
  - split.
    + intro H. destruct (insert_key_In _ _ _ H) as [-> | Hin]; [left; reflexivity |].
      right. apply IH, Hin.
    + intros [<- | H]; apply insert_key_In_inv; [left; reflexivity |].
      right. apply IH, H.
Qed.

(** The Thema [parse_row] reads from a row whose first label carries the
    token is the first cell. *)
Lemma thema_of_first_column (key : str) (v : value) (rest : Series) :
  contains (py "Thema") key = true ->
  thema (parse_row ((key, v) :: rest)) = v.
Proof.
  intro Hkey. unfold parse_row, filter_like. cbn [thema filter fst].
  rewrite Hkey. reflexivity.
Qed.

Lemma topic_label_is_not_table_num (key : str) :
  contains (py "Thema") key = true -> str_eqb (py "table_num") key = false.
Proof.
  intro Hkey. apply str_eqb_neq. intros <-. vm_compute in Hkey. discriminate.
Qed.

(** When the label of the first column contains "Thema", the rows that
    [table_preprocessing] hands on have pairwise distinct Thema: rows with
    the same Thema were merged into one. *)
Lemma grouped_rows_have_distinct_topics (df_table df : DataFrame) (idx : Z)
    (key : str) (filtered_columns : list str) :
  columns df_table = key :: filtered_columns ->
  contains (py "Thema") key = true ->
  table_preprocessing df_table idx = Some df ->
  NoDup (map (fun row => thema (parse_row row)) (iterrows df)).
Proof.
  intros Hcols Hkey. unfold table_preprocessing. rewrite Hcols.
  destruct (text_rows _) as [rows |]; [| discriminate].
  intro H. injection H as <-.
  assert (Htopics : forall keys aggs,
            map (fun row => thema (parse_row row))
                (iterrows (assign_column (py "table_num") (VInt idx)
                             {| columns := key :: filtered_columns;
                                data := map (fun k => VStr k :: aggs k) keys |}))
            = map VStr keys).
  { intros keys aggs. unfold iterrows, assign_column.
    cbn [columns data]. cbn [existsb]. rewrite (topic_label_is_not_table_num key Hkey).
    cbn [orb].
    destruct (existsb (str_eqb (py "table_num")) filtered_columns);
      cbn [columns data]; rewrite !map_map; apply map_ext; intro k.
    - cbn [combine map fst snd]. rewrite (topic_label_is_not_table_num key Hkey).
      apply thema_of_first_column, Hkey.
    - cbn [app combine]. apply thema_of_first_column, Hkey. }
  rewrite (Htopics _ (fun k => map VStr (agg_join (length filtered_columns) (group_rows k rows)))).
  apply Injective_map_NoDup.
  - intros a b Hab. injection Hab as ->. reflexivity.
  - apply increasing_NoDup, group_keys_increasing.
Qed.

(** C9 fails on a table whose first column is not the Thema: the two rows
    of [categorized_table] share the Thema "Bewerbung" but not the category
    in the first column, so [table_preprocessing], which groups by the first
    column, keeps both, and the detector is handed two rows with the same
    primary key [("Bewerbung", 0)] and different rooms.  One run on the
    empty store then prints two messages for the one Thema and leaves the
    second room in the store. *)
Theorem first_column_grouping_keeps_duplicate_topics :
  exists df row1 row2 r1 r2,
    table_preprocessing categorized_table 0 = Some df
    /\ iterrows df = [row1; row2]
    /\ bind_row (parse_row row1) = Some r1
    /\ bind_row (parse_row row2) = Some r2
    /\ Sqlite.Thema r1 = py "Bewerbung" /\ Sqlite.Thema r2 = py "Bewerbung"
    /\ Sqlite.table_num r1 = 0 /\ Sqlite.table_num r2 = 0
    /\ Sqlite.Raum r1 = py "A 305" /\ Sqlite.Raum r2 = py "B 101"
    /\ exists st,
         @main_loop trim_dmp 0 [categorized_table] empty_state = Some st
         /\ Sqlite.committed (conn st) = [r2]
         /\ length (stdout st) = 4%nat.
Proof.
  do 5 eexists.
  split; [vm_compute; reflexivity |].
  split; [vm_compute; reflexivity |].
  split; [vm_compute; reflexivity |].
  split; [vm_compute; reflexivity |].
  repeat (split; [reflexivity |]).
  eexists. split; [vm_compute; reflexivity |]. split; reflexivity.
Qed.

(** The two rows of [sample_table] with the Thema "Bewerbung" become one
    row with the rooms joined; the groups come out sorted by Thema. *)
Example sample_table_is_merged :
  table_preprocessing sample_table 3
  = Some {| columns := [py "Thema"; py "Raum"; py "table_num"];
            data := [[VStr (py "Assessment"); VStr []; VInt 3];
                     [VStr (py "Bewerbung"); VStr (py "A 305, B 101"); VInt 3]] |}.
Proof. reflexivity. Qed.

(** The rows of [sample_table] after preprocessing have distinct Thema. *)
Lemma grouped_rows_have_distinct_topics_witness :
  exists df,
    table_preprocessing sample_table 3 = Some df
    /\ NoDup (map (fun row => thema (parse_row row)) (iterrows df)).
Proof.
  eexists. split; [vm_compute; reflexivity |].
  apply (grouped_rows_have_distinct_topics sample_table _ 3 (py "Thema") [py "Raum"]);
    reflexivity.
Defined.

(** A run over a new row and a blank row from the empty store stores no
    blank Thema. *)
Lemma apply_rows_topics_not_blank_witness :
  exists st',
    @apply_rows trim_dmp
      [sample_row (py "Bewerbung") (py "10"); sample_row (py " ") (py "4")] empty_state
    = Some st'
    /\ topics_not_blank (Sqlite.current (conn st')).
Proof.
  eexists. split; [vm_compute; reflexivity |].
  apply (@apply_rows_topics_not_blank trim_dmp
           [sample_row (py "Bewerbung") (py "10"); sample_row (py " ") (py "4")]
           empty_state _).
  - constructor.
  - vm_compute. reflexivity.
Defined.

(** ** More on what the store keeps *)

Lemma primary_key_updated (key_topic : str) (key_n : Z)
    (ue bv termine uhrzeit raum anmeldung : str) (tbl : Sqlite.Table) :
  map primary_key
      (map (fun r => if Sqlite.where_key key_topic key_n r
                     then updated r ue bv termine uhrzeit raum anmeldung else r) tbl)
  = map primary_key tbl.
Proof.
  rewrite map_map. apply map_ext. intro r.
  destruct (Sqlite.where_key key_topic key_n r); reflexivity.
Qed.

Lemma where_key_primary_key (topic : str) (n : Z) (r : Sqlite.CareerCenter) :
  Sqlite.where_key topic n r = true <-> primary_key r = (topic, n).
Proof.
  unfold Sqlite.where_key, primary_key. rewrite andb_true_iff, str_eqb_eq, Z.eqb_eq.
  split.
  - intros [-> ->]. reflexivity.
  - intro H. injection H as -> ->. split; reflexivity.
Qed.

Lemma stored_app (tbl : Sqlite.Table) (r : Sqlite.CareerCenter) (topic : str) (n : Z) :
  stored tbl topic n -> stored (tbl ++ [r]) topic n.
Proof.
  unfold stored, Sqlite.select. rewrite filter_app.
  destruct (filter (Sqlite.where_key topic n) tbl); simpl.
  - intro H. exfalso. apply H. reflexivity.
  - intros _. discriminate.
Qed.

Lemma stored_update (tbl : Sqlite.Table) (key_topic : str) (key_n : Z)
    (ue bv termine uhrzeit raum anmeldung : str) (topic : str) (n : Z) :
  stored tbl topic n ->
  stored (map (fun r => if Sqlite.where_key key_topic key_n r
                        then updated r ue bv termine uhrzeit raum anmeldung else r) tbl)
         topic n.
Proof.
  unfold stored. rewrite select_update.
  destruct (Sqlite.select tbl topic n); simpl.
  - intro H. exfalso. apply H. reflexivity.
  - intros _. discriminate.
Qed.

Section StoreFacts.

Context {dmp : diff_match_patch}.

(** The detector keeps the primary keys of the store distinct. *)
Lemma check_for_change_keys_unique (row : Series) (st st' : State) :
  keys_unique (Sqlite.current (conn st)) ->
  check_for_change row st = Some st' ->
  keys_unique (Sqlite.current (conn st')).
Proof.
  intros Hstore. unfold check_for_change.
  destruct (forallb isnull (map snd row)); [intro H; injection H as <-; exact Hstore |].
  cbv zeta.
  destruct (thema (parse_row row)) as [| topic |] eqn:Htopic; try discriminate.
  destruct (str_eqb (strip topic) []);
    [intro H; injection H as <-; exact Hstore |].
  destruct (py_int (table_num (parse_row row))) as [n |]; [| discriminate].
  destruct (Sqlite.fetchone _) as [result_db |].
  - destruct (compare_entries _ _) as [result change_detected].
    destruct change_detected; [| intro H; injection H as <-; exact Hstore].
    destruct (bind_row (parse_row row)) as [r |]; [| discriminate].
    rewrite update_done.
    destruct (generate_message result (stdout st)); [| discriminate].
    intro H. injection H as <-. cbn [conn Sqlite.commit Sqlite.current].
    unfold keys_unique in *. rewrite primary_key_updated. exact Hstore.
  - destruct (bind_row (parse_row row)) as [r |]; [| discriminate].
    unfold Sqlite.insert.
    destruct (existsb _ _) eqn:Hfree; [discriminate |].
    destruct (generate_message _ _); [| discriminate].
    intro H. injection H as <-. cbn [conn Sqlite.commit Sqlite.current].
    unfold keys_unique in *. rewrite map_app. simpl.
    apply NoDup_app; [exact Hstore | repeat constructor; intros [] |].
    intros k Hk [<- | []].
    apply in_map_iff in Hk. destruct Hk as [r' [Hkey Hr']].
    assert (Hex : existsb (Sqlite.where_key (Sqlite.Thema r) (Sqlite.table_num r))
                          (Sqlite.current (conn st)) = true).
    { apply existsb_exists. exists r'. split; [exact Hr' |].
      apply where_key_primary_key. exact Hkey. }
    rewrite Hex in Hfree. discriminate.
Qed.

(** The store only grows: a key that is stored stays stored. *)
Lemma check_for_change_keeps_records (row : Series) (st st' : State) (topic : str) (n : Z) :
  stored (Sqlite.current (conn st)) topic n ->
  check_for_change row st = Some st' ->
  stored (Sqlite.current (conn st')) topic n.
Proof.
  intros Hstore. unfold check_for_change.
  destruct (forallb isnull (map snd row)); [intro H; injection H as <-; exact Hstore |].
  cbv zeta.
  destruct (thema (parse_row row)) as [| topic' |]; try discriminate.
  destruct (str_eqb (strip topic') []);
    [intro H; injection H as <-; exact Hstore |].
  destruct (py_int (table_num (parse_row row))) as [n' |]; [| discriminate].
  destruct (Sqlite.fetchone _) as [result_db |].
  - destruct (compare_entries _ _) as [result change_detected].
    destruct change_detected; [| intro H; injection H as <-; exact Hstore].
    destruct (bind_row (parse_row row)) as [r |]; [| discriminate].
    rewrite update_done.
    destruct (generate_message result (stdout st)); [| discriminate].
    intro H. injection H as <-. cbn [conn Sqlite.commit Sqlite.current].
    apply stored_update, Hstore.
  - destruct (bind_row (parse_row row)) as [r |]; [| discriminate].
    unfold Sqlite.insert.
    destruct (existsb _ _); [discriminate |].
    destruct (generate_message _ _); [| discriminate].
    intro H. injection H as <-. cbn [conn Sqlite.commit Sqlite.current].
    apply stored_app, Hstore.
Qed.

(** Every write is committed before [check_for_change] returns. *)
Lemma check_for_change_commits (row : Series) (st st' : State) :
  Sqlite.committed (conn st) = Sqlite.current (conn st) ->
  check_for_change row st = Some st' ->
  Sqlite.committed (conn st') = Sqlite.current (conn st').
Proof.
  intros Hstore. unfold check_for_change.
  destruct (forallb isnull (map snd row)); [intro H; injection H as <-; exact Hstore |].
  cbv zeta.
  destruct (thema (parse_row row)) as [| topic' |]; try discriminate.
  destruct (str_eqb (strip topic') []);
    [intro H; injection H as <-; exact Hstore |].
  destruct (py_int (table_num (parse_row row))) as [n' |]; [| discriminate].
  destruct (Sqlite.fetchone _) as [result_db |].
  - destruct (compare_entries _ _) as [result change_detected].
    destruct change_detected; [| intro H; injection H as <-; exact Hstore].
    destruct (bind_row (parse_row row)) as [r |]; [| discriminate].
    rewrite update_done.
    destruct (generate_message result (stdout st)); [| discriminate].
    intro H. injection H as <-. reflexivity.
  - destruct (bind_row (parse_row row)) as [r |]; [| discriminate].
    unfold Sqlite.insert.
    destruct (existsb _ _); [discriminate |].
    destruct (generate_message _ _); [| discriminate].
    intro H. injection H as <-. reflexivity.
Qed.

End StoreFacts.

(** ** Rendering *)

Lemma generate_pretty_diff_equalities (diff : Diff) :
  Forall (fun elem => fst elem = 0) diff -> generate_pretty_diff diff = diff_text1 diff.
Proof.
  unfold generate_pretty_diff. rewrite generate_pretty_diff_concat. simpl.
  unfold diff_text1. induction 1 as [| [op text] diff Hop _ IH]; simpl.
  - reflexivity.
  - simpl in Hop. subst op. unfold pretty_elem at 1. simpl. rewrite IH. reflexivity.
Qed.

Section RenderFacts.

Context {dmp : diff_match_patch} {spec : diff_match_patch_spec dmp}.

(** The diff of a text with itself has no edit and renders as the text. *)
Lemma same_text_renders_unchanged (text : str) :
  num_changed_elements (calc_str_diff text text) = 0%nat
  /\ generate_pretty_diff (calc_str_diff text text) = text.
Proof.
  split; [apply calc_str_diff_same |].
  rewrite generate_pretty_diff_equalities.
  - apply calc_str_diff_text1.
  - apply num_changed_zero, calc_str_diff_same.
Qed.

End RenderFacts.

(** The store of the sample run has distinct keys. *)
Lemma check_for_change_keys_unique_witness :
  exists st',
    @check_for_change trim_dmp (sample_row (py "X") (py "12"))
      (state_with (sample_record (py "X") (py "10"))) = Some st'
    /\ keys_unique (Sqlite.current (conn st')).
Proof.
  eexists. split; [vm_compute; reflexivity |].
  apply (@check_for_change_keys_unique trim_dmp (sample_row (py "X") (py "12"))
           (state_with (sample_record (py "X") (py "10"))) _).
  - repeat constructor. intros [].
  - vm_compute. reflexivity.
Defined.

(** The record of the sample store is still stored after a new row came in. *)
Lemma check_for_change_keeps_records_witness :
  exists st',
    @check_for_change trim_dmp (sample_row (py "Y") (py "12"))
      (state_with (sample_record (py "X") (py "10"))) = Some st'
    /\ stored (Sqlite.current (conn st')) (py "X") 0.
Proof.
  eexists. split; [vm_compute; reflexivity |].
  apply (@check_for_change_keeps_records trim_dmp (sample_row (py "Y") (py "12"))
           (state_with (sample_record (py "X") (py "10"))) _ (py "X") 0).
  - vm_compute. discriminate.
  - vm_compute. reflexivity.
Defined.

(** The sample run leaves nothing uncommitted. *)
Lemma check_for_change_commits_witness :
  exists st',
    @check_for_change trim_dmp (sample_row (py "Y") (py "12"))
      (state_with (sample_record (py "X") (py "10"))) = Some st'
    /\ Sqlite.committed (conn st') = Sqlite.current (conn st').
Proof.
  eexists. split; [vm_compute; reflexivity |].
  apply (@check_for_change_commits trim_dmp (sample_row (py "Y") (py "12"))
           (state_with (sample_record (py "X") (py "10"))) _).
  - reflexivity.
  - vm_compute. reflexivity.
Defined.

(** The text ["9:45"] against itself, with the small differ. *)
Lemma same_text_renders_unchanged_witness :
  num_changed_elements (@calc_str_diff trim_dmp (py "9:45") (py "9:45")) = 0%nat
  /\ generate_pretty_diff (@calc_str_diff trim_dmp (py "9:45") (py "9:45")) = py "9:45".
Proof.
  exact (@same_text_renders_unchanged trim_dmp trim_dmp_spec (py "9:45")).
Defined.

(** ** More on the record normalizer *)

Lemma get0_skips_unmatched (token : str) (before after : Series) (label : str)
    (v default : value) :
  contains token label = false ->
  get0 (filter_like token (before ++ (label, v) :: after)) default
  = get0 (filter_like token (before ++ after)) default.
Proof.
  intro H. unfold filter_like. rewrite !filter_app. simpl. rewrite H. reflexivity.
Qed.

Lemma get0_keeps_first (token : str) (row extra : Series) (default : value) :
  existsb (fun entry => contains token (fst entry)) row = true ->
  get0 (filter_like token (row ++ extra)) default = get0 (filter_like token row) default.
Proof.
  unfold filter_like. induction row as [| [label v] row IH]; simpl.
  - discriminate.
  - destruct (contains token label); simpl.
    + reflexivity.
    + exact IH.
Qed.

(** A column whose label contains none of the eight tokens has no
    influence on what [parse_row] returns, wherever it stands in the row. *)
Theorem parse_row_ignores_unknown_columns (before after : Series) (label : str) (v : value) :
  existsb (fun token => contains token label) known_tokens = false ->
  parse_row (before ++ (label, v) :: after) = parse_row (before ++ after).
Proof.
  unfold known_tokens. cbn [existsb]. intro H.
  repeat (apply orb_false_iff in H; destruct H as [? H]).
  unfold parse_row.
  rewrite !get0_skips_unmatched by assumption.
  reflexivity.
Qed.

(** The first matching column wins: once every token has a column in the
    row, columns appended after it change nothing. *)
Theorem parse_row_first_columns_win (row extra : Series) :
  forallb (fun token => existsb (fun entry => contains token (fst entry)) row) known_tokens
  = true ->
  parse_row (row ++ extra) = parse_row row.
Proof.
  unfold known_tokens. cbn [forallb]. intro H.
  repeat (apply andb_true_iff in H; destruct H as [? H]).
  unfold parse_row.
  rewrite !get0_keeps_first by assumption.
  reflexivity.
Qed.

(** ** More on messages and rendering *)

Lemma map_snd_combine {A B : Type} (l1 : list A) (l2 : list B) :
  map snd (combine l1 l2) = firstn (length l1) l2.
Proof.
  revert l2. induction l1 as [| a l1 IH]; intros [| b l2]; simpl; try reflexivity.
  rewrite IH. reflexivity.
Qed.

Lemma message_lines_none (pairs : list (str * value)) (message : str) :
  message_lines pairs message = None <-> forallb is_text (map snd pairs) = false.
Proof.
  revert message. induction pairs as [| [title info] pairs IH]; intro message; simpl.
  - split; discriminate.
  - destruct info; simpl; try (split; reflexivity).
    apply IH.
Qed.

(** [generate_message] fails exactly when one of the first seven elements of
    the tuple is not text; what follows the seventh (the [table_num]) is
    never looked at.  When it succeeds it appends one message and the
    separator to what was printed before. *)
Theorem generate_message_needs_seven_texts (result_html : list value) (out : list str) :
  (generate_message result_html out = None
   <-> forallb is_text (firstn 7 result_html) = false)
  /\ (forall out', generate_message result_html out = Some out' ->
                   exists message, out' = out ++ [message; separator]).
Proof.
  unfold generate_message. split.
  - change 7%nat with (length titles). rewrite <- map_snd_combine.
    rewrite <- (message_lines_none (combine titles result_html) []).
    destruct (message_lines (combine titles result_html) []); split; intro H;
      solve [reflexivity | discriminate].
  - intros out' H.
    destruct (message_lines (combine titles result_html) []) as [message |];
      [| discriminate].
    injection H as <-. exists message. reflexivity.
Qed.

(** A deleted piece is rendered with a space and U+0336 after each of its
    characters but the last, and U+0336 alone after the last, so that the
    rendering has three code points for every character, less one; an empty
    deleted piece still renders one U+0336. *)
Theorem deleted_text_is_struck_through (text : str) :
  generate_pretty_diff [(-1, text)]
  = match text with
    | [] => [822%N]
    | c :: rest => c :: flat_map (fun c' => [32%N; 822%N; c']) rest ++ [822%N]
    end
  /\ length (generate_pretty_diff [(-1, text)]) = Nat.max 1 (3 * length text - 1).
Proof.
  assert (H : generate_pretty_diff [(-1, text)] = struck_through text).
  { unfold generate_pretty_diff. cbn [fold_left app]. apply pretty_elem_deleted. }
  rewrite H. clear H. split; [reflexivity |].
  destruct text as [| c rest]; [reflexivity |].
  unfold struck_through. cbn [length]. rewrite length_app. cbn [length].
  assert (Hlen : length (flat_map (fun c' => [32%N; 822%N; c']) rest) = (3 * length rest)%nat).
  { induction rest as [| c' rest IH]; [reflexivity |].
    cbn [flat_map app length]. rewrite IH. lia. }
  rewrite Hlen. lia.
Qed.

(** The rendering of a diff is the rendering of its pieces, in order. *)
Theorem generate_pretty_diff_app (diff1 diff2 : Diff) :
  generate_pretty_diff (diff1 ++ diff2)
  = generate_pretty_diff diff1 ++ generate_pretty_diff diff2.
Proof.
  unfold generate_pretty_diff.
  rewrite !generate_pretty_diff_concat, map_app, concat_app. reflexivity.
Qed.

(** ** One row after another *)

Lemma select_update_other (tbl : Sqlite.Table) (topic topic' : str) (n n' : Z)
    (ue bv termine uhrzeit raum anmeldung : str) :
  (topic', n') <> (topic, n) ->
  Sqlite.select
    (map (fun r => if Sqlite.where_key topic n r
                   then updated r ue bv termine uhrzeit raum anmeldung else r) tbl)
    topic' n'
  = Sqlite.select tbl topic' n'.
Proof.
  intro Hne. rewrite select_update. unfold Sqlite.select.
  induction tbl as [| r tbl IH]; simpl.
  - reflexivity.
  - destruct (Sqlite.where_key topic' n' r) eqn:Hk'; simpl; [| exact IH].
    rewrite IH. f_equal.
    destruct (Sqlite.where_key topic n r) eqn:Hk; [| reflexivity].
    rewrite (where_key_neq topic topic' n n' r Hne Hk) in Hk'. discriminate.
Qed.

Lemma select_insert_other (tbl : Sqlite.Table) (r : Sqlite.CareerCenter) (topic' : str)
    (n' : Z) :
  (topic', n') <> primary_key r ->
  Sqlite.select (tbl ++ [r]) topic' n' = Sqlite.select tbl topic' n'.
Proof.
  intro Hne. unfold Sqlite.select. rewrite filter_app. simpl.
  destruct (Sqlite.where_key topic' n' r) eqn:Hk.
  - apply where_key_primary_key in Hk. exfalso. apply Hne. symmetry. exact Hk.
  - apply app_nil_r.
Qed.

Lemma fetchone_none_nil (result_set : list Sqlite.CareerCenter) :
  Sqlite.fetchone result_set = None -> result_set = [].
Proof. destruct result_set; [reflexivity | discriminate]. Qed.

Lemma fetchone_after_insert (tbl : Sqlite.Table) (r : Sqlite.CareerCenter) :
  Sqlite.fetchone (Sqlite.select tbl (Sqlite.Thema r) (Sqlite.table_num r)) = None ->
  Sqlite.fetchone (Sqlite.select (tbl ++ [r]) (Sqlite.Thema r) (Sqlite.table_num r))
  = Some r.
Proof.
  intro H. apply fetchone_none_nil in H. unfold Sqlite.select in *.
  rewrite filter_app, H. simpl.
  assert (Hk : Sqlite.where_key (Sqlite.Thema r) (Sqlite.table_num r) r = true)
    by (apply where_key_primary_key; reflexivity).
  rewrite Hk. reflexivity.
Qed.

Lemma bind_row_key (row : Series) (r : Sqlite.CareerCenter) :
  bind_row (parse_row row) = Some r ->
  row_key row = (VStr (Sqlite.Thema r), VInt (Sqlite.table_num r)).
Proof. intro H. unfold row_key. rewrite (bind_row_inv _ _ H). reflexivity. Qed.

Section RowFacts.

Context {dmp : diff_match_patch}.

Lemma entry_shown_text (entry_db entry_html : str) :
  entry_shown (VStr entry_db, VStr entry_html) = VStr (result_field entry_db entry_html).
Proof.
  unfold entry_shown, entry_changed, result_field. cbn [fst snd py_str].
  destruct (field_changed entry_db entry_html); reflexivity.
Qed.

(** The loop on two records, whatever the differ: seven texts, then what
    the loop makes of the two [table_num]. *)
Lemma compare_entries_records (r_db r_html : Sqlite.CareerCenter) :
  exists last changed,
    compare_entries (Sqlite.as_tuple r_db) (Sqlite.as_tuple r_html)
    = (map VStr (result_fields r_db r_html) ++ [last], changed).
Proof.
  rewrite compare_entries_eq.
  destruct r_db as [t1 u1 b1 d1 z1 ro1 a1 n1], r_html as [t2 u2 b2 d2 z2 ro2 a2 n2].
  unfold result_fields.
  cbn [Sqlite.as_tuple shown_fields combine map fst snd app
       Sqlite.Thema Sqlite.Zeitlicher_Umfang Sqlite.Anerkennung Sqlite.Termin
       Sqlite.Uhrzeit Sqlite.Raum Sqlite.Anmeldung Sqlite.table_num].
  rewrite !entry_shown_text. eexists. eexists. reflexivity.
Qed.

(** A row that normalizes to a record is processed to a normal return. *)
Lemma check_for_change_typed_returns (row : Series) (st : State) (r : Sqlite.CareerCenter) :
  bind_row (parse_row row) = Some r ->
  exists st', check_for_change row st = Some st'.
Proof.
  intro Hbind.
  destruct (str_eq_dec (strip (Sqlite.Thema r)) []) as [Hblank | Hblank].
  - exists st. unfold check_for_change.
    destruct (forallb isnull (map snd row)); [reflexivity |].
    cbv zeta. rewrite (bind_row_inv _ _ Hbind). cbn [thema].
    rewrite Hblank. reflexivity.
  - rewrite (check_for_change_typed row st r Hbind Hblank).
    destruct (Sqlite.fetchone _) as [r_db |] eqn:Hfound.
    + destruct (compare_entries_records r_db r) as [last [changed ->]].
      destruct changed; [| eauto].
      rewrite update_done, generate_message_text by reflexivity. eauto.
    + unfold Sqlite.insert. rewrite (fetchone_select_none _ _ _ Hfound).
      rewrite as_tuple_shown_fields, generate_message_text by reflexivity. eauto.
Qed.

(** What a call prints: nothing, or one message and the separator. *)
Lemma check_for_change_prints (row : Series) (st st' : State) :
  check_for_change row st = Some st' ->
  stdout st' = stdout st \/ exists message, stdout st' = stdout st ++ [message; separator].
Proof.
  unfold check_for_change.
  destruct (forallb isnull (map snd row)); [intro H; injection H as <-; left; reflexivity |].
  cbv zeta.
  destruct (thema (parse_row row)) as [| topic |]; try discriminate.
  destruct (str_eqb (strip topic) []);
    [intro H; injection H as <-; left; reflexivity |].
  destruct (py_int (table_num (parse_row row))) as [n |]; [| discriminate].
  destruct (Sqlite.fetchone _) as [result_db |].
  - destruct (compare_entries _ _) as [result change_detected].
    destruct change_detected; [| intro H; injection H as <-; left; reflexivity].
    destruct (bind_row (parse_row row)) as [r |]; [| discriminate].
    rewrite update_done. unfold generate_message.
    destruct (message_lines _ _) as [message |]; [| discriminate].
    intro H. injection H as <-. right. exists message. reflexivity.
  - destruct (bind_row (parse_row row)) as [r |]; [| discriminate].
    unfold Sqlite.insert.
    destruct (existsb _ _); [discriminate |].
    unfold generate_message.
    destruct (message_lines _ _) as [message |]; [| discriminate].
    intro H. injection H as <-. right. exists message. reflexivity.
Qed.

(** A call leaves the records under every key but the row's own as they are. *)
Lemma check_for_change_other_keys (row : Series) (st st' : State) (topic' : str) (n' : Z) :
  check_for_change row st = Some st' ->
  row_key row <> (VStr topic', VInt n') ->
  Sqlite.select (Sqlite.current (conn st')) topic' n'
  = Sqlite.select (Sqlite.current (conn st)) topic' n'.
Proof.
  unfold check_for_change.
  destruct (forallb isnull (map snd row)); [intro H; injection H as <-; reflexivity |].
  cbv zeta.
  destruct (thema (parse_row row)) as [| topic |] eqn:Htopic; try discriminate.
  destruct (str_eqb (strip topic) []);
    [intro H; injection H as <-; reflexivity |].
  destruct (py_int (table_num (parse_row row))) as [n |]; [| discriminate].
  destruct (Sqlite.fetchone _) as [result_db |].
  - destruct (compare_entries _ _) as [result change_detected].
    destruct change_detected; [| intro H; injection H as <-; reflexivity].
    destruct (bind_row (parse_row row)) as [r |] eqn:Hbind; [| discriminate].
    rewrite update_done.
    destruct (generate_message result (stdout st)); [| discriminate].
    intros H Hkey. injection H as <-. cbn [conn Sqlite.commit Sqlite.current].
    apply select_update_other. intro Heq. apply Hkey.
    rewrite (bind_row_key row r Hbind). injection Heq as -> ->. reflexivity.
  - destruct (bind_row (parse_row row)) as [r |] eqn:Hbind; [| discriminate].
    unfold Sqlite.insert.
    destruct (existsb _ _); [discriminate |].
    destruct (generate_message _ _); [| discriminate].
    intros H Hkey. injection H as <-. cbn [conn Sqlite.commit Sqlite.current].
    apply select_insert_other. intro Heq. apply Hkey.
    rewrite (bind_row_key row r Hbind). unfold primary_key in Heq.
    injection Heq as -> ->. reflexivity.
Qed.

(** A call leaves the connection as it was or with everything committed. *)
Lemma check_for_change_conn (row : Series) (st st' : State) :
  check_for_change row st = Some st' ->
  conn st' = conn st
  \/ Sqlite.committed (conn st') = Sqlite.current (conn st').
Proof.
  unfold check_for_change.
  destruct (forallb isnull (map snd row)); [intro H; injection H as <-; left; reflexivity |].
  cbv zeta.
  destruct (thema (parse_row row)) as [| topic |]; try discriminate.
  destruct (str_eqb (strip topic) []);
    [intro H; injection H as <-; left; reflexivity |].
  destruct (py_int (table_num (parse_row row))) as [n |]; [| discriminate].
  destruct (Sqlite.fetchone _) as [result_db |].
  - destruct (compare_entries _ _) as [result change_detected].
    destruct change_detected; [| intro H; injection H as <-; left; reflexivity].
    destruct (bind_row (parse_row row)) as [r |]; [| discriminate].
    rewrite update_done.
    destruct (generate_message result (stdout st)); [| discriminate].
    intro H. injection H as <-. right. reflexivity.
  - destruct (bind_row (parse_row row)) as [r |]; [| discriminate].
    unfold Sqlite.insert.
    destruct (existsb _ _); [discriminate |].
    destruct (generate_message _ _); [| discriminate].
    intro H. injection H as <-. right. reflexivity.
Qed.

Context {spec : diff_match_patch_spec dmp}.

Lemma field_unchanged_same (entry_db entry_html : str) :
  field_changed entry_db entry_html = false -> entry_db = entry_html.
Proof.
  unfold field_changed. intro H. apply Nat.ltb_ge in H.
  assert (H0 : num_changed_elements (calc_str_diff entry_db entry_html) = 0%nat) by lia.
  apply num_changed_zero in H0.
  rewrite <- (calc_str_diff_text1 entry_db entry_html) at 1.
  rewrite <- (calc_str_diff_text2 entry_db entry_html) at 2.
  apply equalities_same_text, H0.
Qed.

(** After a call on a typed row that is not blank, the row's record is
    what the store holds under the row's key. *)
Lemma check_for_change_stores_row (row : Series) (st st' : State) (r : Sqlite.CareerCenter) :
  bind_row (parse_row row) = Some r ->
  strip (Sqlite.Thema r) <> [] ->
  check_for_change row st = Some st' ->
  Sqlite.fetchone (Sqlite.select (Sqlite.current (conn st'))
                                 (Sqlite.Thema r) (Sqlite.table_num r)) = Some r.
Proof.
  intros Hbind Hblank.
  rewrite (check_for_change_typed row st r Hbind Hblank).
  destruct (Sqlite.fetchone _) as [r_db |] eqn:Hfound.
  - destruct (fetchone_select_some _ _ _ _ Hfound) as [_ [Ht Hn]].
    rewrite (compare_entries_same_key r_db r Ht Hn).
    destruct (any_nonkey_field_changed r_db r) eqn:Hchanged.
    + rewrite update_done, generate_message_text by reflexivity.
      intro H. injection H as <-. cbn [conn Sqlite.current].
      rewrite (fetchone_after_update _ _ _ _ _ _ _ _ _ _ Hfound).
      destruct r; reflexivity.
    + intro H. injection H as <-. rewrite Hfound. f_equal.
      unfold any_nonkey_field_changed, shown_fields in Hchanged.
      cbn [combine existsb tl fst snd] in Hchanged.
      repeat (apply orb_false_iff in Hchanged; destruct Hchanged as [? Hchanged]).
      repeat match goal with
             | H : field_changed _ _ = false |- _ => apply field_unchanged_same in H
             end.
      destruct r_db, r. simpl in *. congruence.
  - unfold Sqlite.insert. rewrite (fetchone_select_none _ _ _ Hfound).
    rewrite as_tuple_shown_fields, generate_message_text by reflexivity.
    intro H. injection H as <-. cbn [conn Sqlite.current].
    apply fetchone_after_insert, Hfound.
Qed.

(** A call on a typed row that is blank, or whose record is the one stored
    under its key, changes nothing. *)
Lemma check_for_change_settled (row : Series) (st : State) (r : Sqlite.CareerCenter) :
  bind_row (parse_row row) = Some r ->
  strip (Sqlite.Thema r) = []
  \/ Sqlite.fetchone (Sqlite.select (Sqlite.current (conn st))
                                    (Sqlite.Thema r) (Sqlite.table_num r)) = Some r ->
  check_for_change row st = Some st.
Proof.
  intros Hbind Hcase.
  destruct (str_eq_dec (strip (Sqlite.Thema r)) []) as [Hblank | Hblank].
  - unfold check_for_change.
    destruct (forallb isnull (map snd row)); [reflexivity |].
    cbv zeta. rewrite (bind_row_inv _ _ Hbind). cbn [thema].
    rewrite Hblank. reflexivity.
  - destruct Hcase as [Hcase | Hfound]; [contradiction |].
    rewrite (check_for_change_typed row st r Hbind Hblank), Hfound.
    rewrite (compare_entries_same_key r r eq_refl eq_refl).
    assert (Hnone : any_nonkey_field_changed r r = false).
    { unfold any_nonkey_field_changed, shown_fields. cbn [combine existsb tl fst snd].
      rewrite !field_changed_same. reflexivity. }
    rewrite Hnone. reflexivity.
Qed.

End RowFacts.

(** ** A sequence of rows *)

Section RowsFacts.

Context {dmp : diff_match_patch}.

Lemma apply_rows_app (rows1 rows2 : list Series) (st : State) :
  apply_rows (rows1 ++ rows2) st = (st' <- apply_rows rows1 st ;; apply_rows rows2 st').
Proof.
  revert st. induction rows1 as [| row rows1 IH]; intro st; simpl.
  - reflexivity.
  - destruct (check_for_change row st) as [st1 |]; [apply IH | reflexivity].
Qed.

Lemma apply_rows_returns (rows : list Series) (st : State) :
  Forall (fun row => exists r, bind_row (parse_row row) = Some r) rows ->
  exists st', apply_rows rows st = Some st'.
Proof.
  intro Htyped. revert st. induction Htyped as [| row rows [r Hr] _ IH]; intro st; simpl.
  - eauto.
  - destruct (check_for_change_typed_returns row st r Hr) as [st1 ->]. apply IH.
Qed.

Lemma apply_rows_other_keys (rows : list Series) (st st' : State) (topic' : str) (n' : Z) :
  apply_rows rows st = Some st' ->
  ~ In (VStr topic', VInt n') (map row_key rows) ->
  Sqlite.select (Sqlite.current (conn st')) topic' n'
  = Sqlite.select (Sqlite.current (conn st)) topic' n'.
Proof.
  revert st. induction rows as [| row rows IH]; intros st; simpl.
  - intros H _. injection H as <-. reflexivity.
  - destruct (check_for_change row st) as [st1 |] eqn:Hrow; [| discriminate].
    intros Hrest Hnotin.
    rewrite (IH st1 Hrest) by tauto.
    apply (check_for_change_other_keys row st st1 topic' n' Hrow). tauto.
Qed.

Lemma apply_rows_conn (rows : list Series) (st st' : State) :
  apply_rows rows st = Some st' ->
  Sqlite.committed (conn st) = Sqlite.current (conn st) ->
  Sqlite.committed (conn st') = Sqlite.current (conn st').
Proof.
  revert st. induction rows as [| row rows IH]; intros st; simpl.
  - intros H Hc. injection H as <-. exact Hc.
  - destruct (check_for_change row st) as [st1 |] eqn:Hrow; [| discriminate].
    intros Hrest Hc. apply (IH st1 Hrest).
    destruct (check_for_change_conn row st st1 Hrow) as [-> | H]; assumption.
Qed.

(** What a run over [rows] prints is appended, and it is at most one
    message and one separator for every row. *)
Theorem apply_rows_appends_output (rows : list Series) (st st' : State) :
  apply_rows rows st = Some st' ->
  exists printed,
    stdout st' = stdout st ++ printed
    /\ (length printed <= 2 * length rows)%nat.
Proof.
  revert st. induction rows as [| row rows IH]; intros st; simpl.
  - intro H. injection H as <-. exists []. rewrite app_nil_r. split; [reflexivity | simpl; lia].
  - destruct (check_for_change row st) as [st1 |] eqn:Hrow; [| discriminate].
    intro Hrest. destruct (IH st1 Hrest) as [printed [Hout Hlen]].
    destruct (check_for_change_prints row st st1 Hrow) as [H1 | [message H1]].
    + exists printed. rewrite Hout, H1. split; [reflexivity | lia].
    + exists ([message; separator] ++ printed).
      rewrite Hout, H1, <- app_assoc. split; [reflexivity |].
      rewrite length_app. simpl. lia.
Qed.

Context {spec : diff_match_patch_spec dmp}.

Lemma apply_rows_stores_rows (rows : list Series) (st st' : State) :
  NoDup (map row_key rows) ->
  apply_rows rows st = Some st' ->
  forall row r,
    In row rows ->
    bind_row (parse_row row) = Some r ->
    strip (Sqlite.Thema r) <> [] ->
    Sqlite.fetchone (Sqlite.select (Sqlite.current (conn st'))
                                   (Sqlite.Thema r) (Sqlite.table_num r)) = Some r.
Proof.
  revert st. induction rows as [| row0 rows IH]; intros st Hkeys; simpl.
  - intros _ row r [].
  - destruct (check_for_change row0 st) as [st1 |] eqn:Hrow0; [| discriminate].
    inversion Hkeys as [| k ks Hnotin Hrest]; subst.
    intros Hrun row r [<- | Hin] Hbind Hblank.
    + rewrite (apply_rows_other_keys rows st1 st' _ _ Hrun).
      * apply (check_for_change_stores_row row0 st st1 r Hbind Hblank Hrow0).
      * rewrite <- (bind_row_key row0 r Hbind). exact Hnotin.
    + apply (IH st1 Hrest Hrun row r Hin Hbind Hblank).
Qed.

Lemma apply_rows_settled (rows : list Series) (st : State) :
  (forall row, In row rows ->
     exists r, bind_row (parse_row row) = Some r
               /\ (strip (Sqlite.Thema r) = []
                   \/ Sqlite.fetchone (Sqlite.select (Sqlite.current (conn st))
                                                     (Sqlite.Thema r) (Sqlite.table_num r))
                      = Some r)) ->
  apply_rows rows st = Some st.
Proof.
  induction rows as [| row rows IH]; intro H; simpl.
  - reflexivity.
  - destruct (H row (or_introl eq_refl)) as [r [Hbind Hcase]].
    rewrite (check_for_change_settled row st r Hbind Hcase).
    apply IH. intros row' Hin. apply H. right. exact Hin.
Qed.

(** A second run over the same rows is silent: when the rows normalize to
    records with pairwise distinct keys, the state a run leaves is a state
    the same rows leave as it is. *)
Lemma apply_rows_twice (rows : list Series) (st st' : State) :
  Forall (fun row => exists r, bind_row (parse_row row) = Some r) rows ->
  NoDup (map row_key rows) ->
  apply_rows rows st = Some st' ->
  forall out, apply_rows rows (mkState (conn st') out) = Some (mkState (conn st') out).
Proof.
  intros Htyped Hkeys Hrun out. apply apply_rows_settled.
  intros row Hin. rewrite Forall_forall in Htyped.
  destruct (Htyped row Hin) as [r Hbind]. exists r. split; [exact Hbind |].
  destruct (str_eq_dec (strip (Sqlite.Thema r)) []) as [Hblank | Hblank];
    [left; exact Hblank | right].
  cbn [conn]. apply (apply_rows_stores_rows rows st st' Hkeys Hrun row r Hin Hbind Hblank).
Qed.

End RowsFacts.

(** ** The rows of a preprocessed table *)

Lemma text_cells_scraped (cells : list value) :
  forallb scraped_cell cells = true ->
  exists texts, text_cells (map fill_null cells) = Some texts.
Proof.
  induction cells as [| v cells IH]; simpl.
  - eauto.
  - intro H. apply andb_true_iff in H. destruct H as [Hv Hcells].
    destruct (IH Hcells) as [texts Htexts].
    destruct v; simpl in *; try discriminate; rewrite Htexts; eauto.
Qed.

Lemma text_rows_scraped (rows : list (list value)) :
  forallb (forallb scraped_cell) rows = true ->
  exists texts, text_rows (map (map fill_null) rows) = Some texts.
Proof.
  induction rows as [| r rows IH]; simpl.
  - eauto.
  - intro H. apply andb_true_iff in H. destruct H as [Hr Hrows].
    destruct (text_cells_scraped r Hr) as [cells ->].
    destruct (IH Hrows) as [texts ->]. eauto.
Qed.

Lemma text_cells_first (cells : list value) (texts : list str) :
  text_cells (map fill_null cells) = Some texts -> hd [] texts = first_text cells.
Proof.
  destruct cells as [| v cells]; simpl.
  - intro H. injection H as <-. reflexivity.
  - destruct v; simpl; try discriminate;
      destruct (text_cells (map fill_null cells)); try discriminate;
      intro H; injection H as <-; reflexivity.
Qed.

Lemma text_rows_first (rows : list (list value)) (texts : list (list str)) :
  text_rows (map (map fill_null) rows) = Some texts ->
  map (hd []) texts = map first_text rows.
Proof.
  revert texts. induction rows as [| r rows IH]; intro texts; simpl.
  - intro H. injection H as <-. reflexivity.
  - destruct (text_cells (map fill_null r)) as [cells |] eqn:Hr; [| discriminate].
    destruct (text_rows (map (map fill_null) rows)) as [tl |]; [| discriminate].
    intro H. injection H as <-. simpl.
    rewrite (text_cells_first r cells Hr), (IH tl eq_refl). reflexivity.
Qed.

Lemma combine_map_combine {A B C : Type} (f : A * B -> C) (l1 : list A) (l2 : list B) :
  combine l1 (map f (combine l1 l2)) = map (fun ab => (fst ab, f ab)) (combine l1 l2).
Proof.
  revert l2. induction l1 as [| a l1 IH]; intros [| b l2]; simpl; try reflexivity.
  rewrite IH. reflexivity.
Qed.

Lemma combine_app_same_length {A B : Type} (l1 l1' : list A) (l2 l2' : list B) :
  length l1 = length l2 ->
  combine (l1 ++ l1') (l2 ++ l2') = combine l1 l2 ++ combine l1' l2'.
Proof.
  revert l2. induction l1 as [| a l1 IH]; intros [| b l2]; simpl; try discriminate.
  - reflexivity.
  - intro H. injection H as H. rewrite (IH l2 H). reflexivity.
Qed.

Lemma map_fst_combine_same_length {A B : Type} (l1 : list A) (l2 : list B) :
  length l1 = length l2 -> map fst (combine l1 l2) = l1.
Proof.
  revert l2. induction l1 as [| a l1 IH]; intros [| b l2]; simpl; try discriminate.
  - reflexivity.
  - intro H. injection H as H. rewrite (IH l2 H). reflexivity.
Qed.

Lemma agg_join_length (ncols : nat) (group : list (list str)) :
  length (agg_join ncols group) = ncols.
Proof. unfold agg_join. rewrite length_map, length_seq. reflexivity. Qed.

(** The rows handed on, spelled out: one row for every group key, the key
    under the first label, then the joined cells and the index. *)
Lemma table_preprocessing_rows (df_table df : DataFrame) (idx : Z) (key : str)
    (filtered_columns : list str) :
  columns df_table = key :: filtered_columns ->
  contains (py "Thema") key = true ->
  table_preprocessing df_table idx = Some df ->
  exists rows,
    text_rows (map (map fill_null) (data df_table)) = Some rows
    /\ iterrows df
       = map (fun k => (key, VStr k)
                       :: grouped_tail idx filtered_columns
                            (agg_join (length filtered_columns) (group_rows k rows)))
             (group_keys (map (hd []) rows)).
Proof.
  intros Hcols Hkey. unfold table_preprocessing. rewrite Hcols.
  destruct (text_rows _) as [rows |]; [| discriminate].
  intro H. injection H as <-. exists rows. split; [reflexivity |].
  unfold iterrows, assign_column, grouped_tail. cbn [columns data existsb].
  rewrite (topic_label_is_not_table_num key Hkey). cbn [orb].
  destruct (existsb (str_eqb (py "table_num")) filtered_columns);
    cbn [columns data]; rewrite !map_map; apply map_ext; intro k.
  - cbn [combine map fst snd]. rewrite (topic_label_is_not_table_num key Hkey).
    f_equal. apply combine_map_combine.
  - cbn [app combine]. f_equal.
    rewrite combine_app_same_length
      by (rewrite length_map, agg_join_length; reflexivity).
    reflexivity.
Qed.

Lemma grouped_tail_entries (idx : Z) (filtered_columns : list str) (aggs : list str) :
  Forall (grouped_entry idx) (grouped_tail idx filtered_columns aggs).
Proof.
  unfold grouped_tail.
  destruct (existsb (str_eqb (py "table_num")) filtered_columns) eqn:Hex.
  - apply Forall_forall. intros entry Hin. apply in_map_iff in Hin.
    destruct Hin as [[label v] [<- Hlv]]. unfold grouped_entry. cbn [fst snd].
    destruct (str_eqb (py "table_num") label); [reflexivity |].
    apply in_combine_r in Hlv. apply in_map_iff in Hlv.
    destruct Hlv as [a [<- _]]. reflexivity.
  - apply Forall_app. split.
    + apply Forall_forall. intros [label v] Hin. unfold grouped_entry. cbn [fst snd].
      pose proof (in_combine_l _ _ _ _ Hin) as Hlabel.
      pose proof (in_combine_r _ _ _ _ Hin) as Hv.
      assert (Hne : str_eqb (py "table_num") label = false).
      { destruct (str_eqb (py "table_num") label) eqn:E; [| reflexivity].
        rewrite <- Hex. symmetry. apply existsb_exists. exists label. auto. }
      rewrite Hne. apply in_map_iff in Hv. destruct Hv as [a [<- _]]. reflexivity.
    + constructor; [reflexivity | constructor].
Qed.

Lemma grouped_tail_labels (idx : Z) (filtered_columns : list str) (aggs : list str)
    (entry : str * value) :
  In entry (grouped_tail idx filtered_columns aggs) ->
  In (fst entry) filtered_columns \/ fst entry = py "table_num".
Proof.
  unfold grouped_tail.
  destruct (existsb (str_eqb (py "table_num")) filtered_columns).
  - intro Hin. apply in_map_iff in Hin. destruct Hin as [[label v] [<- Hlv]].
    left. apply (in_combine_l _ _ _ _ Hlv).
  - intro Hin. apply in_app_or in Hin. destruct Hin as [Hin | [<- | []]].
    + left. destruct entry as [label v]. apply (in_combine_l _ _ _ _ Hin).
    + right. reflexivity.
Qed.

Lemma grouped_tail_has_index (idx : Z) (filtered_columns : list str) (aggs : list str) :
  length aggs = length filtered_columns ->
  In (py "table_num") (map fst (grouped_tail idx filtered_columns aggs)).
Proof.
  intro Hlen. unfold grouped_tail.
  destruct (existsb (str_eqb (py "table_num")) filtered_columns) eqn:Hex.
  - rewrite map_map. cbn [fst].
    rewrite map_fst_combine_same_length by (rewrite length_map; symmetry; exact Hlen).
    apply existsb_exists in Hex. destruct Hex as [label [Hin Heq]].
    apply str_eqb_eq in Heq. subst label. exact Hin.
  - rewrite map_app. apply in_or_app. right. left. reflexivity.
Qed.

Lemma text_field_of_grouped_row (idx : Z) (token : str) (row : Series) :
  contains token (py "table_num") = false ->
  Forall (grouped_entry idx) row ->
  is_text (get0 (filter_like token row) (VStr [])) = true.
Proof.
  intros Htoken. unfold filter_like.
  induction 1 as [| [label v] row Hentry _ IH]; simpl.
  - reflexivity.
  - destruct (contains token label) eqn:Hlabel; simpl; [| exact IH].
    unfold grouped_entry in Hentry. cbn [fst snd] in Hentry.
    destruct (str_eqb (py "table_num") label) eqn:E; [| exact Hentry].
    apply str_eqb_eq in E. subst label. rewrite Hlabel in Htoken. discriminate.
Qed.

Lemma index_field_of_grouped_row (idx : Z) (row : Series) (default : value) :
  Forall (grouped_entry idx) row ->
  Forall (fun entry => plain_label (fst entry) = true) row ->
  In (py "table_num") (map fst row) ->
  get0 (filter_like (py "table_num") row) default = VInt idx.
Proof.
  unfold filter_like.
  induction 1 as [| [label v] row Hentry _ IH]; intros Hplain Hin; simpl.
  - destruct Hin.
  - inversion Hplain as [| e es Hlabel Hrest]; subst. cbn [fst] in *.
    destruct (contains (py "table_num") label) eqn:Hc; simpl.
    + unfold plain_label in Hlabel. rewrite Hc in Hlabel. simpl in Hlabel.
      unfold grouped_entry in Hentry. cbn [fst snd] in Hentry.
      rewrite Hlabel in Hentry. exact Hentry.
    + apply IH; [exact Hrest |].
      cbn [map fst In] in Hin. destruct Hin as [Heq | Hin]; [| exact Hin].
      subst label. vm_compute in Hc. discriminate.
Qed.

(** A row of texts and one index normalizes to a record with that index. *)
Lemma grouped_row_binds (idx : Z) (row : Series) :
  Forall (grouped_entry idx) row ->
  Forall (fun entry => plain_label (fst entry) = true) row ->
  In (py "table_num") (map fst row) ->
  exists r, bind_row (parse_row row) = Some r /\ Sqlite.table_num r = idx.
Proof.
  intros Hentries Hplain Hindex.
  pose proof (text_field_of_grouped_row idx (py "Thema") row eq_refl Hentries) as H1.
  pose proof (text_field_of_grouped_row idx (py "(UE)") row eq_refl Hentries) as H2.
  pose proof (text_field_of_grouped_row idx (py "Anerkennung") row eq_refl Hentries) as H3.
  pose proof (text_field_of_grouped_row idx (py "Termin") row eq_refl Hentries) as H4.
  pose proof (text_field_of_grouped_row idx (py "Uhrzeit") row eq_refl Hentries) as H5.
  pose proof (text_field_of_grouped_row idx (py "Raum") row eq_refl Hentries) as H6.
  pose proof (text_field_of_grouped_row idx (py "Anmeldung") row eq_refl Hentries) as H7.
  pose proof (index_field_of_grouped_row idx row (VStr []) Hentries Hplain Hindex) as H8.
  unfold bind_row, parse_row.
  cbn [thema ue bv termine uhrzeit raum anmeldung table_num].
  rewrite H8.
  destruct (get0 (filter_like (py "Thema") row) (VStr [])); try discriminate.
  destruct (get0 (filter_like (py "(UE)") row) (VStr [])); try discriminate.
  destruct (get0 (filter_like (py "Anerkennung") row) (VStr [])); try discriminate.
  destruct (get0 (filter_like (py "Termin") row) (VStr [])); try discriminate.
  destruct (get0 (filter_like (py "Uhrzeit") row) (VStr [])); try discriminate.
  destruct (get0 (filter_like (py "Raum") row) (VStr [])); try discriminate.
  destruct (get0 (filter_like (py "Anmeldung") row) (VStr [])); try discriminate.
  cbn [bind_text py_int]. eexists. split; reflexivity.
Qed.

Lemma scraped_table_inv (df_table : DataFrame) :
  scraped_table df_table = true ->
  exists key filtered_columns,
    columns df_table = key :: filtered_columns
    /\ contains (py "Thema") key = true
    /\ forallb plain_label (key :: filtered_columns) = true
    /\ forallb (forallb scraped_cell) (data df_table) = true.
Proof.
  unfold scraped_table. destruct (columns df_table) as [| key filtered_columns].
  - discriminate.
  - intro H. apply andb_true_iff in H. destruct H as [H Hcells].
    apply andb_true_iff in H. destruct H as [Hkey Hplain].
    exists key, filtered_columns. auto.
Qed.

Lemma grouped_row_facts (idx : Z) (key : str) (filtered_columns : list str) (k : str)
    (aggs : list str) :
  contains (py "Thema") key = true ->
  forallb plain_label (key :: filtered_columns) = true ->
  length aggs = length filtered_columns ->
  Forall (grouped_entry idx) ((key, VStr k) :: grouped_tail idx filtered_columns aggs)
  /\ Forall (fun entry => plain_label (fst entry) = true)
            ((key, VStr k) :: grouped_tail idx filtered_columns aggs)
  /\ In (py "table_num")
        (map fst ((key, VStr k) :: grouped_tail idx filtered_columns aggs)).
Proof.
  intros Hkey Hplain Hlen. cbn [forallb] in Hplain.
  apply andb_true_iff in Hplain. destruct Hplain as [Hplain_key Hplain].
  split; [| split].
  - constructor; [| apply grouped_tail_entries].
    unfold grouped_entry. cbn [fst snd].
    rewrite (topic_label_is_not_table_num key Hkey). reflexivity.
  - constructor; [exact Hplain_key |].
    apply Forall_forall. intros entry Hin.
    destruct (grouped_tail_labels idx filtered_columns aggs entry Hin) as [Hl | ->].
    + rewrite forallb_forall in Hplain. apply Hplain, Hl.
    + reflexivity.
  - right. apply grouped_tail_has_index, Hlen.
Qed.

(** What [table_preprocessing] makes of a table of the page: one row for
    each distinct Thema, each a record with the index of the table. *)
Lemma scraped_table_rows (df_table : DataFrame) (idx : Z) :
  scraped_table df_table = true ->
  exists df keys,
    table_preprocessing df_table idx = Some df
    /\ NoDup keys
    /\ (forall t, In t keys <-> In t (map first_text (data df_table)))
    /\ map row_key (iterrows df) = map (fun k => (VStr k, VInt idx)) keys
    /\ Forall (fun row => exists r, bind_row (parse_row row) = Some r
                                    /\ Sqlite.table_num r = idx) (iterrows df).
Proof.
  intro Hscraped.
  destruct (scraped_table_inv df_table Hscraped)
    as [key [filtered_columns [Hcols [Hkey [Hplain Hcells]]]]].
  destruct (text_rows_scraped _ Hcells) as [rows Hrows].
  assert (Hsome : exists df, table_preprocessing df_table idx = Some df).
  { unfold table_preprocessing. rewrite Hcols, Hrows. eauto. }
  destruct Hsome as [df Hdf].
  destruct (table_preprocessing_rows df_table df idx key filtered_columns Hcols Hkey Hdf)
    as [rows' [Hrows' Hiter]].
  rewrite Hrows in Hrows'. injection Hrows' as <-.
  exists df, (group_keys (map (hd []) rows)).
  split; [exact Hdf |]. split; [apply increasing_NoDup, group_keys_increasing |].
  split; [intro t; rewrite group_keys_In, (text_rows_first _ _ Hrows); tauto |].
  rewrite Hiter. split.
  - rewrite map_map. apply map_ext. intro k.
    destruct (grouped_row_facts idx key filtered_columns k
                (agg_join (length filtered_columns) (group_rows k rows))
                Hkey Hplain (agg_join_length _ _)) as [He [Hp Hi]].
    unfold row_key. f_equal.
    + apply thema_of_first_column, Hkey.
    + apply (index_field_of_grouped_row idx _ (VStr []) He Hp Hi).
  - apply Forall_forall. intros row Hin. apply in_map_iff in Hin.
    destruct Hin as [k [<- _]].
    destruct (grouped_row_facts idx key filtered_columns k
                (agg_join (length filtered_columns) (group_rows k rows))
                Hkey Hplain (agg_join_length _ _)) as [He [Hp Hi]].
    apply (grouped_row_binds idx _ He Hp Hi).
Qed.

(** Every row that [table_preprocessing] hands on from a table of the page
    normalizes to a record of seven texts that carries the index of its
    table: no cell is missing, and [int()] at the lookup is applied to an
    integer. *)
Theorem preprocessed_rows_are_records (df_table df : DataFrame) (idx : Z) :
  scraped_table df_table = true ->
  table_preprocessing df_table idx = Some df ->
  Forall (fun row => exists r, bind_row (parse_row row) = Some r
                               /\ Sqlite.table_num r = idx
                               /\ forallb isnull (map snd row) = false)
         (iterrows df).
Proof.
  intros Hscraped Hdf.
  destruct (scraped_table_rows df_table idx Hscraped) as [df' [keys [Hdf' [_ [_ [_ Hrows]]]]]].
  rewrite Hdf in Hdf'. injection Hdf' as <-.
  eapply Forall_impl; [| exact Hrows].
  intros row [r [Hbind Hidx]]. exists r. split; [exact Hbind |]. split; [exact Hidx |].
  pose proof (bind_row_inv _ _ Hbind) as Hp.
  assert (Htn : get0 (filter_like (py "table_num") row) (VStr []) = VInt (Sqlite.table_num r)).
  { change (table_num (parse_row row) = VInt (Sqlite.table_num r)). rewrite Hp. reflexivity. }
  clear - Htn. unfold filter_like in Htn.
  induction row as [| [label v] row IH]; simpl in *.
  - discriminate.
  - destruct (contains (py "table_num") label); simpl in Htn.
    + subst v. reflexivity.
    + rewrite (IH Htn). apply andb_false_r.
Qed.

(** [table_preprocessing] neither loses nor invents a Thema: the rows it
    hands on from a table of the page carry exactly the texts found in the
    first column (a missing cell counting as ['']), each of them once. *)
Theorem preprocessing_keeps_the_topics (df_table df : DataFrame) (idx : Z) :
  scraped_table df_table = true ->
  table_preprocessing df_table idx = Some df ->
  NoDup (map row_key (iterrows df))
  /\ forall t, In (VStr t, VInt idx) (map row_key (iterrows df))
               <-> In t (map first_text (data df_table)).
Proof.
  intros Hscraped Hdf.
  destruct (scraped_table_rows df_table idx Hscraped)
    as [df' [keys [Hdf' [Hnodup [Hkeys [Hrowkeys _]]]]]].
  rewrite Hdf in Hdf'. injection Hdf' as <-.
  rewrite Hrowkeys. split.
  - apply Injective_map_NoDup; [| exact Hnodup].
    intros a b Hab. injection Hab as ->. reflexivity.
  - intro t. rewrite <- Hkeys. rewrite in_map_iff. split.
    + intros [k [Hk Hin]]. injection Hk as ->. exact Hin.
    + intro Hin. exists t. split; [reflexivity | exact Hin].
Qed.

(** ** The whole run *)

Lemma all_rows_scraped (tables : list DataFrame) (idx : Z) :
  Forall (fun df => scraped_table df = true) tables ->
  exists rows,
    all_rows idx tables = Some rows
    /\ Forall (fun row => exists r, bind_row (parse_row row) = Some r) rows
    /\ NoDup (map row_key rows)
    /\ (forall key, In key (map row_key rows) ->
                    exists t j, key = (VStr t, VInt j) /\ idx <= j).
Proof.
  intro Htables. revert idx.
  induction Htables as [| df_table tables Hscraped _ IH]; intro idx; simpl.
  - exists []. repeat split; try constructor. intros key [].
  - destruct (scraped_table_rows df_table idx Hscraped)
      as [df [keys [-> [Hnodup [_ [Hkeys Hrows]]]]]].
    destruct (IH (idx + 1)) as [rows [-> [Htyped [Hnodup' Hlater]]]].
    exists (iterrows df ++ rows). split; [reflexivity |]. split; [| split].
    + apply Forall_app. split; [| exact Htyped].
      eapply Forall_impl; [| exact Hrows]. intros row [r [Hr _]]. eauto.
    + rewrite map_app. apply NoDup_app.
      * rewrite Hkeys. apply Injective_map_NoDup; [| exact Hnodup].
        intros a b Hab. injection Hab as ->. reflexivity.
      * exact Hnodup'.
      * intros key Hin Hin'. rewrite Hkeys in Hin. apply in_map_iff in Hin.
        destruct Hin as [k [<- _]].
        destruct (Hlater _ Hin') as [t [j [Heq Hj]]]. injection Heq as _ <-. lia.
    + intros key Hin. rewrite map_app in Hin. apply in_app_or in Hin.
      destruct Hin as [Hin | Hin].
      * rewrite Hkeys in Hin. apply in_map_iff in Hin. destruct Hin as [k [<- _]].
        exists k, idx. split; [reflexivity | lia].
      * destruct (Hlater _ Hin) as [t [j [Heq Hj]]]. exists t, j. split; [exact Heq | lia].
Qed.

Section MainFacts.

Context {dmp : diff_match_patch}.

Lemma main_loop_rows (tables : list DataFrame) (idx : Z) (st : State) :
  main_loop idx tables st = (rows <- all_rows idx tables ;; apply_rows rows st).
Proof.
  revert idx st. induction tables as [| df_table tables IH]; intros idx st; simpl.
  - reflexivity.
  - destruct (table_preprocessing df_table idx) as [df |]; [| reflexivity].
    destruct (apply_rows (iterrows df) st) as [st1 |] eqn:Hfirst.
    + rewrite IH. destruct (all_rows (idx + 1) tables) as [rows |]; [| reflexivity].
      rewrite apply_rows_app, Hfirst. reflexivity.
    + destruct (all_rows (idx + 1) tables) as [rows |]; [| reflexivity].
      rewrite apply_rows_app, Hfirst. reflexivity.
Qed.

(** The tables of a page are numbered in order: a run over [tables1 ++
    tables2] is a run over [tables1] followed by a run over [tables2] that
    numbers its tables from where the first stopped. *)
Theorem main_loop_app (tables1 tables2 : list DataFrame) (idx : Z) (st : State) :
  main_loop idx (tables1 ++ tables2) st
  = (st' <- main_loop idx tables1 st ;;
     main_loop (idx + Z.of_nat (length tables1)) tables2 st').
Proof.
  revert idx st. induction tables1 as [| df_table tables1 IH]; intros idx st.
  - simpl. rewrite Z.add_0_r. reflexivity.
  - cbn [app main_loop length].
    destruct (table_preprocessing df_table idx) as [df |]; [| reflexivity].
    destruct (apply_rows (iterrows df) st) as [st1 |]; [| reflexivity].
    rewrite IH. replace (idx + 1 + Z.of_nat (length tables1))
      with (idx + Z.of_nat (S (length tables1))) by lia.
    reflexivity.
Qed.

(** A run over tables of the page completes: no table is refused by
    [table_preprocessing] and no row makes [check_for_change] fail. *)
Theorem main_returns (file : option Sqlite.Table) (tables : list DataFrame) :
  Forall (fun df => scraped_table df = true) tables ->
  exists file' out, main file tables = Some (file', out).
Proof.
  intro Htables. unfold main. rewrite main_loop_rows.
  destruct (all_rows_scraped tables 0 Htables) as [rows [-> [Htyped _]]].
  destruct (apply_rows_returns rows (mkState (setup_sqlite file) []) Htyped) as [st' ->].
  eauto.
Qed.

(** A run leaves the records under every key that is not the key of a row
    of the page exactly as the file had them. *)
Theorem main_keeps_other_records (file : option Sqlite.Table) (tables : list DataFrame)
    (rows : list Series) (file' : Sqlite.Table) (out : list str) (topic : str) (n : Z) :
  all_rows 0 tables = Some rows ->
  ~ In (VStr topic, VInt n) (map row_key rows) ->
  main file tables = Some (file', out) ->
  Sqlite.select file' topic n
  = Sqlite.select (match file with Some tbl => tbl | None => [] end) topic n.
Proof.
  intros Hrows Hkey. unfold main. rewrite main_loop_rows, Hrows.
  destruct (apply_rows rows (mkState (setup_sqlite file) [])) as [st' |] eqn:Hrun;
    [| discriminate].
  intro H. injection H as <- _.
  rewrite (apply_rows_conn rows _ st' Hrun eq_refl).
  apply (apply_rows_other_keys rows _ st' topic n Hrun Hkey).
Qed.

Context {spec : diff_match_patch_spec dmp}.

(** After a run over tables of the page, the file holds every row of the
    page whose Thema is not blank, as scraped, under the row's key. *)
Theorem main_stores_the_page (file : option Sqlite.Table) (tables : list DataFrame)
    (rows : list Series) (file' : Sqlite.Table) (out : list str) :
  Forall (fun df => scraped_table df = true) tables ->
  all_rows 0 tables = Some rows ->
  main file tables = Some (file', out) ->
  forall row r,
    In row rows ->
    bind_row (parse_row row) = Some r ->
    strip (Sqlite.Thema r) <> [] ->
    Sqlite.fetchone (Sqlite.select file' (Sqlite.Thema r) (Sqlite.table_num r)) = Some r.
Proof.
  intros Htables Hrows. unfold main. rewrite main_loop_rows, Hrows.
  destruct (all_rows_scraped tables 0 Htables) as [rows' [Hrows' [_ [Hnodup _]]]].
  rewrite Hrows in Hrows'. injection Hrows' as <-.
  destruct (apply_rows rows (mkState (setup_sqlite file) [])) as [st' |] eqn:Hrun;
    [| discriminate].
  intro H. injection H as <- _. intros row r Hin Hbind Hblank.
  rewrite (apply_rows_conn rows _ st' Hrun eq_refl).
  apply (apply_rows_stores_rows rows _ st' Hnodup Hrun row r Hin Hbind Hblank).
Qed.

(** A second run on an unchanged page is silent: started on the file the
    first run left, the program prints nothing and leaves the file as it
    is. *)
Theorem main_twice_is_silent (file : option Sqlite.Table) (tables : list DataFrame)
    (file' : Sqlite.Table) (out : list str) :
  Forall (fun df => scraped_table df = true) tables ->
  main file tables = Some (file', out) ->
  main (Some file') tables = Some (file', []).
Proof.
  intros Htables. unfold main. rewrite !main_loop_rows.
  destruct (all_rows_scraped tables 0 Htables) as [rows [-> [Htyped [Hnodup _]]]].
  destruct (apply_rows rows (mkState (setup_sqlite file) [])) as [st' |] eqn:Hrun;
    [| discriminate].
  intro H. injection H as <- _.
  pose proof (apply_rows_conn rows _ st' Hrun eq_refl) as Hcommitted.
  assert (Hconn : setup_sqlite (Some (Sqlite.committed (conn st'))) = conn st').
  { unfold setup_sqlite, Sqlite.commit. cbn [Sqlite.current].
    destruct (conn st') as [c u]. cbn [Sqlite.committed Sqlite.current] in *.
    subst u. reflexivity. }
  rewrite Hconn.
  rewrite (apply_rows_twice rows _ st' Htyped Hnodup Hrun []).
  reflexivity.
Qed.

End MainFacts.

(** ** Sample runs of the further properties *)

(** A column Dozent between the Thema and the index changes nothing. *)
Lemma parse_row_ignores_unknown_columns_witness :
  parse_row ([(py "Thema", VStr (py "X"))]
               ++ (py "Dozent", VStr (py "N.N.")) :: [(py "table_num", VInt 0)])
  = parse_row ([(py "Thema", VStr (py "X"))] ++ [(py "table_num", VInt 0)]).
Proof.
  apply (parse_row_ignores_unknown_columns [(py "Thema", VStr (py "X"))]
           [(py "table_num", VInt 0)] (py "Dozent") (VStr (py "N.N."))).
  reflexivity.
Defined.

(** A second Thema column after the sample row changes nothing. *)
Lemma parse_row_first_columns_win_witness :
  parse_row (sample_row (py "X") (py "10") ++ [(py "Thema", VStr (py "Y"))])
  = parse_row (sample_row (py "X") (py "10")).
Proof.
  apply (parse_row_first_columns_win (sample_row (py "X") (py "10"))
           [(py "Thema", VStr (py "Y"))]).
  reflexivity.
Defined.

(** A new row and a blank row: one message and one separator. *)
Lemma apply_rows_appends_output_witness :
  exists st',
    @apply_rows trim_dmp
      [sample_row (py "Bewerbung") (py "10"); sample_row (py " ") (py "4")] empty_state
    = Some st'
    /\ exists printed,
         stdout st' = stdout empty_state ++ printed
         /\ (length printed
             <= 2 * length [sample_row (py "Bewerbung") (py "10");
                            sample_row (py " ") (py "4")])%nat.
Proof.
  eexists. split; [vm_compute; reflexivity |].
  apply (@apply_rows_appends_output trim_dmp
           [sample_row (py "Bewerbung") (py "10"); sample_row (py " ") (py "4")]
           empty_state _).
  vm_compute. reflexivity.
Defined.

(** The rows of [sample_table] as table 3 of a page. *)
Lemma preprocessed_rows_are_records_witness :
  exists df,
    table_preprocessing sample_table 3 = Some df
    /\ Forall (fun row => exists r, bind_row (parse_row row) = Some r
                                    /\ Sqlite.table_num r = 3
                                    /\ forallb isnull (map snd row) = false)
              (iterrows df).
Proof.
  eexists. split; [vm_compute; reflexivity |].
  apply (preprocessed_rows_are_records sample_table _ 3); reflexivity.
Defined.

(** The topics of [sample_table] as table 3 of a page. *)
Lemma preprocessing_keeps_the_topics_witness :
  exists df,
    table_preprocessing sample_table 3 = Some df
    /\ NoDup (map row_key (iterrows df))
    /\ forall t, In (VStr t, VInt 3) (map row_key (iterrows df))
                 <-> In t (map first_text (data sample_table)).
Proof.
  eexists. split; [vm_compute; reflexivity |].
  apply (preprocessing_keeps_the_topics sample_table _ 3); reflexivity.
Defined.

(** A first run on the sample page completes. *)
Lemma main_returns_witness :
  exists file' out, @main trim_dmp None sample_page = Some (file', out).
Proof.
  apply (@main_returns trim_dmp None sample_page).
  repeat constructor.
Defined.

(** The record of an earlier page survives a run on the sample page. *)
Lemma main_keeps_other_records_witness :
  exists file' out,
    @main trim_dmp (Some [sample_record (py "X") (py "10")]) sample_page = Some (file', out)
    /\ Sqlite.select file' (py "X") 0
       = Sqlite.select [sample_record (py "X") (py "10")] (py "X") 0.
Proof.
  eexists. eexists. split; [vm_compute; reflexivity |].
  eapply (@main_keeps_other_records trim_dmp (Some [sample_record (py "X") (py "10")])
            sample_page _ _ _ (py "X") 0).
  - vm_compute. reflexivity.
  - vm_compute. intro H. repeat (destruct H as [H | H]; [discriminate |]). exact H.
  - vm_compute. reflexivity.
Defined.

(** After a first run on the sample page the merged row of the second
    table is in the file. *)
Lemma main_stores_the_page_witness :
  exists file' out,
    @main trim_dmp None sample_page = Some (file', out)
    /\ Sqlite.fetchone (Sqlite.select file' (py "Bewerbung") 1)
       = Some (Sqlite.mkRow (py "Bewerbung") [] [] [] [] (py "A 305, B 101") [] 1).
Proof.
  eexists. eexists. split; [vm_compute; reflexivity |].
  assert (Htables : Forall (fun df => scraped_table df = true) sample_page)
    by repeat constructor.
  destruct (all_rows 0 sample_page) as [rows |] eqn:Hrows; [| discriminate].
  eapply (@main_stores_the_page trim_dmp trim_dmp_spec None sample_page rows _ _
            Htables Hrows _
            [(py "Thema", VStr (py "Bewerbung")); (py "Raum", VStr (py "A 305, B 101"));
             (py "table_num", VInt 1)]
            (Sqlite.mkRow (py "Bewerbung") [] [] [] [] (py "A 305, B 101") [] 1)).
  - vm_compute in Hrows. injection Hrows as Hr. subst rows. vm_compute. tauto.
  - reflexivity.
  - vm_compute. discriminate.
  Unshelve.
  2: (vm_compute; reflexivity).
Defined.

(** Two runs on the sample page: the second prints nothing and leaves the
    file of the first. *)
Lemma main_twice_is_silent_witness :
  exists file' out,
    @main trim_dmp None sample_page = Some (file', out)
    /\ @main trim_dmp (Some file') sample_page = Some (file', []).
Proof.
  eexists. eexists. split; [vm_compute; reflexivity |].
  eapply (@main_twice_is_silent trim_dmp trim_dmp_spec None sample_page).
  - repeat constructor.
  - vm_compute. reflexivity.
Defined.

(** ** Blank topics *)

Lemma lstrip_nil_iff (s : str) : lstrip s = [] <-> forallb isspace s = true.
Proof.
  induction s as [| c s IH]; simpl.
  - tauto.
  - destruct (isspace c); simpl.
    + exact IH.
    + split; discriminate.
Qed.

Lemma lstrip_all_space (s : str) : forallb isspace (lstrip s) = true -> lstrip s = [].
Proof.
  induction s as [| c s IH]; simpl.
  - reflexivity.
  - destruct (isspace c) eqn:Hc; simpl.
    + exact IH.
    + rewrite Hc. discriminate.
Qed.

Lemma forallb_rev {A : Type} (f : A -> bool) (l : list A) :
  forallb f (rev l) = forallb f l.
Proof.
  induction l as [| a l IH]; simpl.
  - reflexivity.
  - rewrite forallb_app, IH. simpl. rewrite andb_true_r. apply andb_comm.
Qed.

Lemma strip_nil_iff (s : str) : strip s = [] <-> forallb isspace s = true.
Proof.
  unfold strip, rstrip. split.
  - intro H. apply (f_equal (@rev N)) in H. rewrite rev_involutive in H. simpl in H.
    apply lstrip_nil_iff in H. rewrite forallb_rev in H.
    apply lstrip_nil_iff, lstrip_all_space, H.
  - intro H. apply lstrip_nil_iff in H. rewrite H. reflexivity.
Qed.

Section BlankFacts.

Context {dmp : diff_match_patch}.

(** A typed row whose key is not stored is skipped exactly when its Thema
    consists of whitespace only (the empty Thema included); otherwise the
    call changes the state. *)
Theorem new_row_is_skipped_iff_blank (row : Series) (st : State) (r : Sqlite.CareerCenter) :
  bind_row (parse_row row) = Some r ->
  Sqlite.fetchone (Sqlite.select (Sqlite.current (conn st))
                                 (Sqlite.Thema r) (Sqlite.table_num r)) = None ->
  (check_for_change row st = Some st <-> forallb isspace (Sqlite.Thema r) = true).
Proof.
  intros Hbind Hnone. rewrite <- strip_nil_iff.
  destruct (str_eq_dec (strip (Sqlite.Thema r)) []) as [Hblank | Hblank].
  - split; [intros _; exact Hblank | intros _].
    unfold check_for_change.
    destruct (forallb isnull (map snd row)); [reflexivity |].
    cbv zeta. rewrite (bind_row_inv _ _ Hbind). cbn [thema].
    rewrite Hblank. reflexivity.
  - split; [| intro H; contradiction].
    rewrite (check_for_change_typed row st r Hbind Hblank), Hnone.
    unfold Sqlite.insert. rewrite (fetchone_select_none _ _ _ Hnone).
    rewrite as_tuple_shown_fields, generate_message_text by reflexivity.
    intro H. injection H as H. exfalso.
    apply (f_equal stdout) in H. cbn [stdout] in H.
    apply (f_equal (@length str)) in H. rewrite length_app in H. simpl in H. lia.
Qed.

End BlankFacts.

(** The sample row with a Thema of a tab and a no-break space, and with
    the Thema ["X"]. *)
Lemma new_row_is_skipped_iff_blank_witness :
  (@check_for_change trim_dmp (sample_row [9%N; 160%N] (py "10")) empty_state
   = Some empty_state
   <-> forallb isspace (Sqlite.Thema (sample_record [9%N; 160%N] (py "10"))) = true)
  /\ (@check_for_change trim_dmp (sample_row (py "X") (py "10")) empty_state
      = Some empty_state
      <-> forallb isspace (Sqlite.Thema (sample_record (py "X") (py "10"))) = true).
Proof.
  split.
  - apply (@new_row_is_skipped_iff_blank trim_dmp (sample_row [9%N; 160%N] (py "10"))
             empty_state (sample_record [9%N; 160%N] (py "10"))); reflexivity.
  - apply (@new_row_is_skipped_iff_blank trim_dmp (sample_row (py "X") (py "10"))
             empty_state (sample_record (py "X") (py "10"))); reflexivity.
Defined.

(** ** Order and single rows of a preprocessed table *)

(** The rows of a table of the page are handed on in increasing order of
    their Thema (Python's order on text), whatever their order on the page. *)
Theorem preprocessed_rows_are_sorted (df_table df : DataFrame) (idx : Z) :
  scraped_table df_table = true ->
  table_preprocessing df_table idx = Some df ->
  exists keys,
    increasing keys
    /\ map (fun row => thema (parse_row row)) (iterrows df) = map VStr keys.
Proof.
  intros Hscraped Hdf.
  destruct (scraped_table_inv df_table Hscraped)
    as [key [filtered_columns [Hcols [Hkey _]]]].
  destruct (table_preprocessing_rows df_table df idx key filtered_columns Hcols Hkey Hdf)
    as [rows [_ Hiter]].
  exists (group_keys (map (hd []) rows)). split; [apply group_keys_increasing |].
  rewrite Hiter, map_map. apply map_ext. intro k.
  apply thema_of_first_column, Hkey.
Qed.

(** The rows of [sample_table], where "Bewerbung" comes first on the page. *)
Lemma preprocessed_rows_are_sorted_witness :
  exists df,
    table_preprocessing sample_table 3 = Some df
    /\ exists keys,
         increasing keys
         /\ map (fun row => thema (parse_row row)) (iterrows df) = map VStr keys.
Proof.
  eexists. split; [vm_compute; reflexivity |].
  apply (preprocessed_rows_are_sorted sample_table _ 3); reflexivity.
Defined.

Lemma text_cells_inv (cells : list value) (texts : list str) :
  text_cells cells = Some texts -> cells = map VStr texts.
Proof.
  revert texts. induction cells as [| v cells IH]; intro texts; simpl.
  - intro H. injection H as <-. reflexivity.
  - destruct v; try discriminate.
    destruct (text_cells cells) as [tl |]; [| discriminate].
    intro H. injection H as <-. simpl. rewrite (IH tl eq_refl). reflexivity.
Qed.

Lemma text_rows_split (before after : list (list value)) (cells : list value)
    (rows : list (list str)) :
  text_rows (before ++ cells :: after) = Some rows ->
  exists rows1 texts rows2,
    rows = rows1 ++ texts :: rows2
    /\ text_rows before = Some rows1
    /\ text_cells cells = Some texts
    /\ text_rows after = Some rows2.
Proof.
  revert rows. induction before as [| b before IH]; intro rows; simpl.
  - destruct (text_cells cells) as [texts |]; [| discriminate].
    destruct (text_rows after) as [rows2 |]; [| discriminate].
    intro H. injection H as <-. exists [], texts, rows2. auto.
  - destruct (text_cells b) as [tb |]; [| discriminate].
    destruct (text_rows (before ++ cells :: after)) as [tl |]; [| discriminate].
    intro H. injection H as <-.
    destruct (IH tl eq_refl) as [rows1 [texts [rows2 [-> [-> [Hc Ha]]]]]].
    exists (tb :: rows1), texts, rows2. auto.
Qed.

Lemma filter_head_absent (k : str) (rows : list (list str)) :
  ~ In k (map (hd []) rows) -> filter (fun r => str_eqb (hd [] r) k) rows = [].
Proof.
  induction rows as [| r rows IH]; simpl.
  - reflexivity.
  - intro H. destruct (str_eqb (hd [] r) k) eqn:E.
    + apply str_eqb_eq in E. exfalso. apply H. left. exact E.
    + apply IH. intro Hin. apply H. right. exact Hin.
Qed.

Lemma map_nth_seq (l : list str) :
  map (fun j => nth j l []) (seq 0 (length l)) = l.
Proof.
  induction l as [| a l IH]; simpl.
  - reflexivity.
  - f_equal. rewrite <- seq_shift, map_map. exact IH.
Qed.

Lemma agg_join_single (texts : list str) : agg_join (length texts) [texts] = texts.
Proof. unfold agg_join. simpl. apply map_nth_seq. Qed.

(** A course that is listed once is passed on as scraped: when no other
    row of the table has its Thema, the row handed on is the row of the
    page with its missing cells as [''] and the index of the table appended. *)
Theorem single_rows_pass_unchanged (df_table df : DataFrame) (idx : Z)
    (before after : list (list value)) (cells : list value) :
  scraped_table df_table = true ->
  existsb (str_eqb (py "table_num")) (columns df_table) = false ->
  table_preprocessing df_table idx = Some df ->
  data df_table = before ++ cells :: after ->
  length cells = length (columns df_table) ->
  ~ In (first_text cells) (map first_text (before ++ after)) ->
  In (combine (columns df_table) (map fill_null cells) ++ [(py "table_num", VInt idx)])
     (iterrows df).
Proof.
  intros Hscraped Hnoindex Hdf Hdata Hlen Hunique.
  destruct (scraped_table_inv df_table Hscraped)
    as [key [filtered_columns [Hcols [Hkey _]]]].
  destruct (table_preprocessing_rows df_table df idx key filtered_columns Hcols Hkey Hdf)
    as [rows [Hrows Hiter]].
  rewrite Hdata, map_app in Hrows. cbn [map] in Hrows.
  destruct (text_rows_split _ _ _ _ Hrows) as [rows1 [texts [rows2 [-> [H1 [Hc H2]]]]]].
  pose proof (text_rows_first _ _ H1) as Hf1.
  pose proof (text_rows_first _ _ H2) as Hf2.
  pose proof (text_cells_first _ _ Hc) as Hfc.
  pose proof (text_cells_inv _ _ Hc) as Hcells.
  rewrite Hcols in Hlen, Hnoindex. cbn [existsb] in Hnoindex.
  apply orb_false_iff in Hnoindex. destruct Hnoindex as [_ Hnoindex].
  assert (Htexts : length texts = S (length filtered_columns)).
  { cbn [length] in Hlen. rewrite <- Hlen.
    rewrite <- (length_map fill_null cells), Hcells, length_map. reflexivity. }
  destruct texts as [| k texts]; [discriminate |].
  cbn [hd] in Hfc. injection Htexts as Htexts.
  rewrite Hiter. apply in_map_iff. exists k. split.
  - assert (Hgroup : group_rows k (rows1 ++ (k :: texts) :: rows2) = [texts]).
    { unfold group_rows. rewrite filter_app. cbn [filter hd].
      rewrite str_eqb_refl.
      rewrite !filter_head_absent.
      - reflexivity.
      - rewrite Hf2, Hfc. intro Hin. apply Hunique. rewrite map_app.
        apply in_or_app. right. exact Hin.
      - rewrite Hf1, Hfc. intro Hin. apply Hunique. rewrite map_app.
        apply in_or_app. left. exact Hin. }
    rewrite Hgroup, <- Htexts, agg_join_single.
    unfold grouped_tail. rewrite Hnoindex, Hcols, Hcells. reflexivity.
  - apply group_keys_In. rewrite map_app. apply in_or_app. right. left. reflexivity.
Qed.

(** The one row of [sample_table] with the Thema "Assessment". *)
Lemma single_rows_pass_unchanged_witness :
  exists df,
    table_preprocessing sample_table 3 = Some df
    /\ In (combine (columns sample_table) (map fill_null [VStr (py "Assessment"); VNull])
             ++ [(py "table_num", VInt 3)])
          (iterrows df).
Proof.
  eexists. split; [vm_compute; reflexivity |].
  apply (single_rows_pass_unchanged sample_table _ 3
           [[VStr (py "Bewerbung"); VStr (py "A 305")]]
           [[VStr (py "Bewerbung"); VStr (py "B 101")]]
           [VStr (py "Assessment"); VNull]); try reflexivity.
  vm_compute. intro H. repeat (destruct H as [H | H]; [discriminate |]). exact H.
Defined.
